(** * Redshift import plugin: a shallow embedding of [src/index.ts]

    The plugin copies the rows of a Redshift table into PostHog events, ten
    rows per job run.  This development embeds the plugin's functions
    ([executeQuery], [importAndIngestEvents], [setupPlugin], [teardownPlugin]
    and the two transformations) as state-passing functions over an explicit
    [World], and states the properties of the specification on them.

    Conventions of the embedding:
    - a JavaScript [number] that the plugin uses as a counter or an offset is
      an integer of [Z]; the delay of a retry, [2 ** k * 3], is that integer
      while a double holds it and [Infinity] beyond; where the source would
      otherwise leave the integers (a [NaN] row count, a fractional delay, a
      retry count that a double no longer increments exactly) the model
      answers [Unmodelled];
    - an [async] function is a function [World -> World * Outcome A]: the
      awaited calls run in sequence, an exception ends the run and keeps the
      effects done so far;
    - the host's [cache] and [storage] are finite maps from keys to numbers;
    - what the platform provides ([JSON.parse], [parseInt], the Postgres
      driver and the server behind it) is a variable of the section. *)

From Stdlib Require Import ZArith List String Ascii Bool Lia.
From stdpp Require Import base gmap strings pretty.
Import ListNotations.

Local Open Scope string_scope.
Local Open Scope list_scope.
Local Open Scope Z_scope.

(** ** JavaScript values *)

Unset Elimination Schemes.
Inductive JSValue :=
| JUndefined
| JNull
| JBool (b : bool)
| JNum (z : Z)
| JStr (s : string)
| JArr (items : list JSValue)
| JObj (entries : list (string * JSValue)).
Set Elimination Schemes.

(** An object is the list of its own properties in insertion order. *)
Definition JSObject := list (string * JSValue).

(** [o[k]]: [undefined] when the property is missing. *)
Fixpoint getProp (o : JSObject) (k : string) : JSValue :=
  match o with
  | [] => JUndefined
  | (k', v) :: rest => if String.eqb k' k then v else getProp rest k
  end.

(** [o[k] = v]: an existing property keeps its place, a new one goes last. *)
Fixpoint setProp (o : JSObject) (k : string) (v : JSValue) : JSObject :=
  match o with
  | [] => [(k, v)]
  | (k', v') :: rest =>
      if String.eqb k' k then (k', v) :: rest else (k', v') :: setProp rest k v
  end.

(** [{ ...o, ...src }]: the properties of [src] are set one by one. *)
Definition assignProps (o src : JSObject) : JSObject :=
  fold_left (fun acc kv => setProp acc (fst kv) (snd kv)) src o.

(** [Object.prototype.hasOwnProperty.call(o, k)] *)
Definition hasOwn (o : JSObject) (k : string) : bool :=
  existsb (fun kv => String.eqb (fst kv) k) o.

(** The names that every object inherits from [Object.prototype]: reading
    one that is not an own property does not give [undefined]. *)
Definition inheritedName (k : string) : bool :=
  existsb (String.eqb k)
          ["constructor"; "toString"; "toLocaleString"; "valueOf";
           "hasOwnProperty"; "isPrototypeOf"; "propertyIsEnumerable";
           "__proto__"; "__defineGetter__"; "__defineSetter__";
           "__lookupGetter__"; "__lookupSetter__"].

(** JavaScript truthiness, on the integers for numbers. *)
Definition truthy (v : JSValue) : bool :=
  match v with
  | JUndefined | JNull => false
  | JBool b => b
  | JNum z => negb (z =? 0)
  | JStr s => negb (String.eqb s "")
  | JArr _ | JObj _ => true
  end.

(** Truthiness of an optional number ([payload.offset], a stored value). *)
Definition truthyNum (o : option Z) : bool :=
  match o with
  | Some z => negb (z =? 0)
  | None => false
  end.

(** Decimal digits of a string, most significant first. *)
Definition digitOf (c : ascii) : option Z :=
  let n := Z.of_nat (nat_of_ascii c) in
  if (48 <=? n) && (n <=? 57) then Some (n - 48) else None.

Fixpoint decimalFrom (acc : Z) (s : string) : option Z :=
  match s with
  | EmptyString => Some acc
  | String c rest =>
      match digitOf c with
      | Some d => decimalFrom (10 * acc + d) rest
      | None => None
      end
  end.

(** [Number(v)], where the model has the result: an integer.  Strings are
    covered when they are a plain run of decimal digits, which is how the
    driver returns a [COUNT].  [None] stands for [NaN] and for every value
    that the model leaves out (other numeric text, arrays). *)
Definition Number (v : JSValue) : option Z :=
  match v with
  | JNum z => Some z
  | JNull => Some 0
  | JBool b => Some (if b then 1 else 0)
  | JStr EmptyString => Some 0
  | JStr s => decimalFrom 0 s
  | JUndefined | JArr _ | JObj _ => None
  end.

(** ** Exceptions and outcomes *)

Inductive Exn :=
| ErrorMsg (message : string)      (* [new Error(message)] *)
| TypeErr (message : string)       (* a [TypeError] of the runtime *)
| SyntaxErr                        (* [JSON.parse] on malformed text *)
| DriverErr (message : string).    (* a rejection of the Postgres driver *)

Inductive Outcome (A : Type) :=
| Returned (a : A)
| Thrown (e : Exn)
| Unmodelled.

Arguments Returned {A} a.
Arguments Thrown {A} e.
Arguments Unmodelled {A}.

(** ** Types of the plugin *)

(** [ImportEventsJobPayload] *)
Record ImportEventsJobPayload := mkPayload {
  offset : option Z;
  retriesPerformedSoFar : Z
}.

Definition QueryResultRow := JSObject.

(** [QueryResult]: only [rows] is read. *)
Record QueryResult := mkQueryResult { rows : list QueryResultRow }.

(** [ExecuteQueryResponse] *)
Record ExecuteQueryResponse := mkResponse {
  error : option Exn;
  queryResult : option QueryResult
}.

(** [TransformedPluginEvent] *)
Record TransformedPluginEvent := mkEvent {
  event : JSValue;
  properties : JSValue
}.

(** The plugin's [config].  The five options that [setupPlugin] requires may
    be missing; the others are strings. *)
Record Config := mkConfig {
  clusterHost : option string;
  clusterPort : option string;
  dbName : option string;
  dbUsername : option string;
  dbPassword : option string;
  tableName : string;
  orderByColumn : string;
  transformationName : string;
  importMechanism : string
}.

(** [option in config] for the names [setupPlugin] asks about. *)
Definition configHas (config : Config) (option : string) : bool :=
  if String.eqb option "clusterHost" then bool_decide (is_Some (clusterHost config))
  else if String.eqb option "clusterPort" then bool_decide (is_Some (clusterPort config))
  else if String.eqb option "dbName" then bool_decide (is_Some (dbName config))
  else if String.eqb option "dbUsername" then bool_decide (is_Some (dbUsername config))
  else if String.eqb option "dbPassword" then bool_decide (is_Some (dbPassword config))
  else true.

(** [meta.attachments]: the contents of the uploaded mapping file. *)
Record Attachments := mkAttachments { rowToEventMap : option string }.

(** [meta.global], as far as the jobs use it. *)
Record Global := mkGlobal {
  initialOffset : Z;
  totalRows : Z
}.

Definition EVENTS_PER_BATCH : Z := 10.

(** [Number.MAX_SAFE_INTEGER], [2^53 - 1]: up to it [n + 1] is exact. *)
Definition MAX_SAFE_INTEGER : Z := 9007199254740991.

(** The largest [k] for which [2 ** k * 3] is finite: [3 * 2^1022] is a
    double, [2 ** 1023 * 3] overflows to [Infinity], and from [k = 1024] on
    [2 ** k] is [Infinity] itself. *)
Definition MAX_FINITE_RETRY_EXPONENT : Z := 1022.
Definition REDIS_OFFSET_KEY : string := "import_offset".

(** ** The Postgres driver *)

(** The argument of [new Client(...)]. *)
Record ClientOptions := mkClientOptions {
  user : option string;
  password : option string;
  host : option string;
  database : option string;
  port : option Z
}.

(** What one client does when it is used: [connect()] and [end()] resolve
    ([None]) or reject, [query(text, values)] resolves to a result or
    rejects. *)
Record PgClient := mkPgClient {
  pg_connect : option Exn;
  pg_query : string -> list Z -> Exn + QueryResult;
  pg_end : option Exn
}.

(** ** The world *)

Inductive Level := LogLevel | ErrorLevel.

(** What the plugin prints, one constructor per message of the source. *)
Inductive Message :=
| MsgSkipped (first last : Z)
    (* `Import error: Unable to process rows ${first}-${last}. Skipped them.` *)
| MsgOffset (offset totalRows : Z)
    (* console.log(offset, global.totalRows) *)
| MsgDone (table : string)
    (* `Done processing all rows in ${table}` *)
| MsgRetry (first last nextRetrySeconds : Z) (err : option Exn)
    (* `Unable to process rows ${first}-${last}. Retrying in ${n}. Error: ${err}` *)
| MsgRetryInfinity (first last : Z) (err : option Exn)
    (* the same message when nextRetrySeconds is Infinity *)
| MsgEvent (e : TransformedPluginEvent)
    (* console.log(event) *)
| MsgProcessed (first last : Z) (ingested : nat) (plural : bool)
    (* `Processed rows ${first}-${last} and ingested ${n} event${s} from them.` *)
| MsgCacheFailure (initialOffset : Z).
    (* 'could not cache redis offset as: ' ... *)

Inductive Effect :=
| PgConnect (client : nat)
| PgQuery (client : nat) (text : string) (values : list Z)
| PgEnd (client : nat)
| Console (level : Level) (m : Message)
| Capture (name : JSValue) (props : JSValue).   (* posthog.capture *)

(** [.runNow()], [.runIn(n, 'seconds')] for an integer [n], and
    [.runIn(Infinity, 'seconds')] *)
Inductive RunAt := RunNow | RunIn (seconds : Z) | RunInInfinity.

Record World := mkWorld {
  cache : gmap string Z;          (* the host's cache (counters) *)
  storage : gmap string Z;        (* the host's durable storage *)
  global : Global;                (* meta.global *)
  clients : nat;                  (* Postgres clients constructed so far *)
  scheduled : list (ImportEventsJobPayload * RunAt);
                                  (* jobs handed to the host, oldest first *)
  trace : list Effect             (* what happened, oldest first *)
}.

Definition setCache (f : gmap string Z -> gmap string Z) (w : World) : World :=
  mkWorld (f (cache w)) (storage w) (global w) (clients w) (scheduled w) (trace w).
Definition setStorage (f : gmap string Z -> gmap string Z) (w : World) : World :=
  mkWorld (cache w) (f (storage w)) (global w) (clients w) (scheduled w) (trace w).
Definition setGlobal (f : Global -> Global) (w : World) : World :=
  mkWorld (cache w) (storage w) (f (global w)) (clients w) (scheduled w) (trace w).
Definition setClients (n : nat) (w : World) : World :=
  mkWorld (cache w) (storage w) (global w) n (scheduled w) (trace w).
Definition setScheduled
    (f : list (ImportEventsJobPayload * RunAt) -> list (ImportEventsJobPayload * RunAt))
    (w : World) : World :=
  mkWorld (cache w) (storage w) (global w) (clients w) (f (scheduled w)) (trace w).
Definition addEffect (e : Effect) (w : World) : World :=
  mkWorld (cache w) (storage w) (global w) (clients w) (scheduled w) (trace w ++ [e]).

(** ** The monad of [async] functions *)

Definition M (A : Type) : Type := World -> World * Outcome A.

Definition ret {A} (a : A) : M A := fun w => (w, Returned a).
Definition throw {A} (e : Exn) : M A := fun w => (w, Thrown e).
Definition unmodelled {A} : M A := fun w => (w, Unmodelled).

Definition bind {A B} (m : M A) (k : A -> M B) : M B :=
  fun w =>
    match m w with
    | (w', Returned a) => k a w'
    | (w', Thrown e) => (w', Thrown e)
    | (w', Unmodelled) => (w', Unmodelled)
    end.

(** [try { m } catch (err) { h err }] *)
Definition tryCatch {A} (m : M A) (h : Exn -> M A) : M A :=
  fun w =>
    match m w with
    | (w', Thrown e) => h e w'
    | r => r
    end.

Definition liftOutcome {A} (o : Outcome A) : M A := fun w => (w, o).

Declare Scope js_scope.
Delimit Scope js_scope with js.
Notation "x <- m ;; k" := (bind m (fun x => k))
  (at level 100, m at next level, right associativity) : js_scope.
Notation "m ;; k" := (bind m (fun _ => k))
  (at level 100, right associativity) : js_scope.
Local Open Scope js_scope.

Definition getWorld : M World := fun w => (w, Returned w).
Definition modify (f : World -> World) : M unit := fun w => (f w, Returned tt).
Definition emit (e : Effect) : M unit := modify (addEffect e).
Definition console_log (m : Message) : M unit := emit (Console LogLevel m).
Definition console_error (m : Message) : M unit := emit (Console ErrorLevel m).

(** [for (const x of xs) { body x }] *)
Fixpoint forEach {A} (xs : list A) (body : A -> M unit) : M unit :=
  match xs with
  | [] => ret tt
  | x :: rest => body x ;; forEach rest body
  end.

(** *** The host's stores and scheduler *)

(** [cache.get(key, dflt)] / [storage.get(key, dflt)] *)
Definition cache_get (key : string) : M (option Z) :=
  w <- getWorld ;; ret (cache w !! key).
Definition cache_set (key : string) (v : Z) : M unit :=
  modify (setCache (insert key v)).
(** [cache.incr(key)]: a missing key counts from 0; returns the new value. *)
Definition cache_incr (key : string) : M Z :=
  w <- getWorld ;;
  let v := default 0 (cache w !! key) + 1 in
  modify (setCache (insert key v)) ;; ret v.
Definition storage_get (key : string) : M (option Z) :=
  w <- getWorld ;; ret (storage w !! key).
Definition storage_set (key : string) (v : Z) : M unit :=
  modify (setStorage (insert key v)).

(** [jobs.importAndIngestEvents(payload).runNow()] / [.runIn(n, 'seconds')] *)
Definition schedule (payload : ImportEventsJobPayload) (at_ : RunAt) : M unit :=
  modify (setScheduled (fun q => q ++ [(payload, at_)])).

(** ** The plugin *)

(** [unquotedIdentifier.replace(/[^\w\d_.]+/g, '')]: only letters, digits,
    the underscore and the dot stay. *)
Definition identifierChar (c : ascii) : bool :=
  let n := Z.of_nat (nat_of_ascii c) in
  ((48 <=? n) && (n <=? 57)) || ((65 <=? n) && (n <=? 90))
  || ((97 <=? n) && (n <=? 122)) || (n =? 95) || (n =? 46).

Fixpoint sanitizeSqlIdentifier (unquotedIdentifier : string) : string :=
  match unquotedIdentifier with
  | EmptyString => EmptyString
  | String c rest =>
      if identifierChar c then String c (sanitizeSqlIdentifier rest)
      else sanitizeSqlIdentifier rest
  end.

(** [s.endsWith(suffix)] *)
Definition endsWith (s suffix : string) : bool :=
  let n := String.length s in
  let k := String.length suffix in
  (k <=? n)%nat && String.eqb (substring (n - k) k s) suffix.

Definition newline : string := String (ascii_of_nat 10) EmptyString.

Definition countQuery (config : Config) : string :=
  "SELECT COUNT(1) FROM " +:+ sanitizeSqlIdentifier (tableName config).

Definition batchQuery (config : Config) : string :=
  "SELECT * FROM " +:+ sanitizeSqlIdentifier (tableName config) +:+ " " +:+ newline
  +:+ "    ORDER BY " +:+ sanitizeSqlIdentifier (orderByColumn config) +:+ newline
  +:+ "    OFFSET $1 LIMIT " +:+ pretty EVENTS_PER_BATCH.

Section Plugin.

(** The platform: [JSON.parse] ([None] when it throws a [SyntaxError]),
    [parseInt] ([None] for [NaN]), and the Postgres server as the driver
    shows it: the behaviour of the [n]-th client constructed, given its
    options. *)
Variable JSON_parse : JSValue -> option JSValue.
Variable parseInt : option string -> option Z.
Variable server : ClientOptions -> nat -> PgClient.

(** *** [executeQuery] *)

Definition rejectOr (r : option Exn) : M unit :=
  match r with
  | Some e => throw e
  | None => ret tt
  end.

(** The argument of [new Client(...)] in [executeQuery]. *)
Definition clientOptions (config : Config) : ClientOptions :=
  {| user := dbUsername config;
     password := dbPassword config;
     host := clusterHost config;
     database := dbName config;
     port := parseInt (clusterPort config) |}.

Definition executeQuery (query : string) (values : list Z) (config : Config)
  : M ExecuteQueryResponse :=
  w <- getWorld ;;
  let id := clients w in
  let pgClient := server (clientOptions config) id in
  modify (setClients (S id)) ;;
  (* await pgClient.connect() *)
  emit (PgConnect id) ;;
  rejectOr (pg_connect pgClient) ;;
  (* try { queryResult = await pgClient.query(query, values) }
     catch (err) { error = err } *)
  emit (PgQuery id query values) ;;
  let response :=
    match pg_query pgClient query values with
    | inr result => {| error := None; queryResult := Some result |}
    | inl err => {| error := Some err; queryResult := None |}
    end in
  (* await pgClient.end() *)
  emit (PgEnd id) ;;
  rejectOr (pg_end pgClient) ;;
  ret response.

(** *** The transformations *)

(** [{ ...v }]: the own enumerable properties of [v].  Objects give their
    entries, primitives other than strings give none; strings and arrays
    (indexed properties) are left out of the model. *)
Definition spread (v : JSValue) : Outcome JSObject :=
  match v with
  | JObj entries => Returned entries
  | JUndefined | JNull | JBool _ | JNum _ => Returned []
  | JStr EmptyString | JArr [] => Returned []
  | JStr _ | JArr _ => Unmodelled
  end.

(** [transformations.default.transform] *)
Definition transformDefault (row : QueryResultRow) : Outcome TransformedPluginEvent :=
  let timestamp := getProp row "timestamp" in
  let distinct_id := getProp row "distinct_id" in
  let event := getProp row "event" in
  let properties := getProp row "properties" in
  match JSON_parse properties with
  | None => Thrown SyntaxErr
  | Some parsed =>
      match spread parsed with
      | Returned entries =>
          Returned
            {| event := event;
               properties :=
                 JObj (setProp
                         (assignProps
                            (setProp (setProp [] "timestamp" timestamp)
                                     "distinct_id" distinct_id)
                            entries)
                         "source" (JStr "redshift_import")) |}
      | Thrown e => Thrown e
      | Unmodelled => Unmodelled
      end
  end.

(** [rowToEventMap[colName]] on the parsed mapping document: an own
    property of an object, [undefined] when the object has none of that name
    and inherits none.  Reading a property of [null] throws; mapping documents
    that are not objects, and inherited names, are left out of the model. *)
Definition mapTarget (rowToEventMap : JSValue) (colName : string) : Outcome JSValue :=
  match rowToEventMap with
  | JObj entries =>
      if hasOwn entries colName then Returned (getProp entries colName)
      else if inheritedName colName then Unmodelled
      else Returned JUndefined
  | JNull | JUndefined => Thrown (TypeErr "Cannot read properties of null")
  | JBool _ | JNum _ | JStr _ | JArr _ => Unmodelled
  end.

(** One turn of the loop over [Object.entries(row)]. *)
Definition jsonMapStep (rowToEventMap : JSValue)
    (acc : Outcome TransformedPluginEvent) (col : string * JSValue)
  : Outcome TransformedPluginEvent :=
  match acc with
  | Returned eventToIngest =>
      match mapTarget rowToEventMap (fst col) with
      | Returned target =>
          if negb (truthy target) then Returned eventToIngest
          else
            match target, properties eventToIngest with
            | JStr name, JObj props =>
                if String.eqb name "event"
                then Returned {| event := snd col;
                                 properties := properties eventToIngest |}
                else if String.eqb name "__proto__"
                then Unmodelled   (* the assignment sets the prototype *)
                else Returned {| event := event eventToIngest;
                                 properties := JObj (setProp props name (snd col)) |}
            | _, _ => Unmodelled   (* a key that is not a string *)
            end
      | Thrown e => Thrown e
      | Unmodelled => Unmodelled
      end
  | other => other
  end.

(** [transformations['JSON Map'].transform] *)
Definition transformJsonMap (row : QueryResultRow) (attachments : Attachments)
  : Outcome TransformedPluginEvent :=
  match rowToEventMap attachments with
  | None => Thrown (ErrorMsg "Row to event mapping JSON file not provided!")
  | Some contents =>
      match JSON_parse (JStr contents) with
      | None => Thrown (ErrorMsg "Row to event mapping JSON file contains invalid JSON!")
      | Some map =>
          fold_left (jsonMapStep map) row
                    (Returned {| event := JStr ""; properties := JObj [] |})
      end
  end.

(** [transformations[name]]: the two registered entries. *)
Definition transformations (name : string)
  : option (QueryResultRow -> Attachments -> Outcome TransformedPluginEvent) :=
  if String.eqb name "default" then Some (fun row _ => transformDefault row)
  else if String.eqb name "JSON Map" then Some transformJsonMap
  else None.

(** [await transformations[config.transformationName].transform(row, meta)] *)
Definition transformRow (config : Config) (attachments : Attachments)
    (row : QueryResultRow) : Outcome TransformedPluginEvent :=
  match transformations (transformationName config) with
  | Some transform => transform row attachments
  | None => Thrown (TypeErr "Cannot read properties of undefined (reading 'transform')")
  end.

(** The first loop of the job: transform the rows in order, stop at the
    first exception. *)
Fixpoint transformRows (config : Config) (attachments : Attachments)
    (rows : list QueryResultRow) : Outcome (list TransformedPluginEvent) :=
  match rows with
  | [] => Returned []
  | row :: rest =>
      match transformRow config attachments row with
      | Returned e =>
          match transformRows config attachments rest with
          | Returned es => Returned (e :: es)
          | other => other
          end
      | Thrown e => Thrown e
      | Unmodelled => Unmodelled
      end
  end.

(** *** [importAndIngestEvents] *)

(** [!queryResponse || queryResponse.error || !queryResponse.queryResult] *)
Definition queryFailed (queryResponse : ExecuteQueryResponse) : bool :=
  match error queryResponse, queryResult queryResponse with
  | None, Some _ => false
  | _, _ => true
  end.

(** The fresh allocation: one [cache.incr], then
    [global.initialOffset + (redisIncrementedOffset - 1) * EVENTS_PER_BATCH]. *)
Definition allocateOffset : M Z :=
  redisIncrementedOffset <- cache_incr REDIS_OFFSET_KEY ;;
  w <- getWorld ;;
  ret (initialOffset (global w) + (redisIncrementedOffset - 1) * EVENTS_PER_BATCH).

(** The body of the second loop of the job:
    [console.log(event); posthog.capture(event.event, event.properties)]. *)
Definition ingestEvent (e : TransformedPluginEvent) : M unit :=
  console_log (MsgEvent e) ;;
  emit (Capture (event e) (properties e)).

Definition importAndIngestEvents (payload : ImportEventsJobPayload)
    (config : Config) (attachments : Attachments) : M unit :=
  if truthyNum (offset payload) && (15 <=? retriesPerformedSoFar payload) then
    let first := default 0 (offset payload) in
    console_error (MsgSkipped first (first + EVENTS_PER_BATCH))
  else
    offset_ <- (if truthyNum (offset payload)
                then ret (default 0 (offset payload))
                else allocateOffset) ;;
    w <- getWorld ;;
    console_log (MsgOffset offset_ (totalRows (global w))) ;;
    if offset_ >? totalRows (global w) then
      console_log (MsgDone (tableName config))
    else
      queryResponse <- executeQuery (batchQuery config) [offset_] config ;;
      (if queryFailed queryResponse then
         if (retriesPerformedSoFar payload <? 0)
            || (MAX_SAFE_INTEGER <? retriesPerformedSoFar payload)
         then unmodelled
         else if retriesPerformedSoFar payload <=? MAX_FINITE_RETRY_EXPONENT then
           let nextRetrySeconds := 2 ^ retriesPerformedSoFar payload * 3 in
           console_log (MsgRetry offset_ (offset_ + EVENTS_PER_BATCH)
                                 nextRetrySeconds (error queryResponse)) ;;
           schedule {| offset := offset payload;
                       retriesPerformedSoFar := retriesPerformedSoFar payload + 1 |}
                    (RunIn nextRetrySeconds)
         else
           (* nextRetrySeconds is Infinity *)
           console_log (MsgRetryInfinity offset_ (offset_ + EVENTS_PER_BATCH)
                                         (error queryResponse)) ;;
           schedule {| offset := offset payload;
                       retriesPerformedSoFar := retriesPerformedSoFar payload + 1 |}
                    RunInInfinity
       else ret tt) ;;
      (* queryResponse.queryResult!.rows *)
      rows_ <- match queryResult queryResponse with
               | Some result => ret (rows result)
               | None => throw (TypeErr "Cannot read properties of null (reading 'rows')")
               end ;;
      eventsToIngest <- liftOutcome (transformRows config attachments rows_) ;;
      forEach eventsToIngest ingestEvent ;;
      console_log (MsgProcessed offset_ (offset_ + EVENTS_PER_BATCH)
                                (length eventsToIngest)
                                (1 <? length eventsToIngest)%nat) ;;
      schedule {| offset := None; retriesPerformedSoFar := 0 |} RunNow.

(** *** [setupPlugin] and [teardownPlugin] *)

Definition requiredConfigOptions : list string :=
  ["clusterHost"; "clusterPort"; "dbName"; "dbUsername"; "dbPassword"].

(** [Number(totalRowsResult.queryResult.rows[0].count)] *)
Definition countOf (totalRowsResult : ExecuteQueryResponse) : M Z :=
  match queryResult totalRowsResult with
  | Some result =>
      match rows result with
      | row :: _ =>
          match Number (getProp row "count") with
          | Some n => ret n
          | None => unmodelled
          end
      | [] => throw (TypeErr "Cannot read properties of undefined (reading 'count')")
      end
  | None => throw (TypeErr "Cannot read properties of null (reading 'rows')")
  end.

Definition setupPlugin (config : Config) : M unit :=
  forEach requiredConfigOptions
          (fun option =>
             if negb (configHas config option)
             then throw (ErrorMsg ("Required config option " +:+ option +:+ " is missing!"))
             else ret tt) ;;
  (match clusterHost config with
   | Some clusterHost =>
       if negb (endsWith clusterHost "redshift.amazonaws.com")
       then throw (ErrorMsg "Cluster host must be a valid AWS Redshift host")
       else ret tt
   | None => throw (TypeErr "Cannot read properties of undefined (reading 'endsWith')")
   end) ;;
  totalRowsResult <- executeQuery (countQuery config) [] config ;;
  (if queryFailed totalRowsResult
   then throw (ErrorMsg "Unable to connect to Redshift!")
   else ret tt) ;;
  count <- countOf totalRowsResult ;;
  modify (setGlobal (fun g => {| initialOffset := initialOffset g; totalRows := count |})) ;;
  (if String.eqb (importMechanism config) "Only import historical data" then
     totalRowsSnapshot <- storage_get "total_rows_snapshot" ;;
     if negb (truthyNum totalRowsSnapshot)
     then storage_set "total_rows_snapshot" count
     else modify (setGlobal (fun g => {| initialOffset := initialOffset g;
                                         totalRows := default 0 totalRowsSnapshot |}))
   else ret tt) ;;
  offset <- storage_get REDIS_OFFSET_KEY ;;
  let initialOffset := default 0 offset in
  modify (setGlobal (fun g => {| initialOffset := initialOffset; totalRows := totalRows g |})) ;;
  tryCatch (let newOffset := initialOffset / EVENTS_PER_BATCH in
            cache_set REDIS_OFFSET_KEY newOffset)
           (fun e => console_error (MsgCacheFailure initialOffset) ;; throw e) ;;
  schedule {| offset := None; retriesPerformedSoFar := 0 |} (RunIn 10).

Definition teardownPlugin : M unit :=
  redisOffset <- cache_get REDIS_OFFSET_KEY ;;
  let workerOffset := default 0 redisOffset * EVENTS_PER_BATCH in
  w <- getWorld ;;
  let offsetToStore :=
    if workerOffset >? totalRows (global w) then totalRows (global w) else workerOffset in
  storage_set REDIS_OFFSET_KEY offsetToStore.

(** *** The host's scheduler

    The host runs the scheduled jobs one after the other, oldest first, and
    keeps going when a job throws.  The delays order nothing here: the
    queue is run in the order of scheduling. *)
Definition runNextJob (config : Config) (attachments : Attachments)
    (w : World) : World * option (Outcome unit) :=
  match scheduled w with
  | [] => (w, None)
  | (payload, _) :: rest =>
      let (w', o) :=
        importAndIngestEvents payload config attachments
                              (setScheduled (fun _ => rest) w) in
      (w', Some o)
  end.

Fixpoint runJobs (n : nat) (config : Config) (attachments : Attachments)
    (w : World) : World * list (option (Outcome unit)) :=
  match n with
  | O => (w, [])
  | S n' =>
      let (w1, o) := runNextJob config attachments w in
      let (w2, os) := runJobs n' config attachments w1 in
      (w2, o :: os)
  end.

End Plugin.

(** ** A concrete platform for the examples

    A reader of JSON text (objects, arrays, strings without escapes,
    integers, [true], [false], [null]) standing for [JSON.parse], and a
    server that holds one table and always answers. *)
Module Sample.

Definition quote : ascii := ascii_of_nat 34.
Definition dq : string := String quote EmptyString.

Definition isSpace (c : ascii) : bool :=
  let n := nat_of_ascii c in
  (n =? 32)%nat || (n =? 9)%nat || (n =? 10)%nat || (n =? 13)%nat.

Fixpoint skipSpaces (s : string) : string :=
  match s with
  | String c rest => if isSpace c then skipSpaces rest else s
  | EmptyString => s
  end.

(** The characters up to the closing quote, and what follows it. *)
Fixpoint readString (s : string) : option (string * string) :=
  match s with
  | EmptyString => None
  | String c rest =>
      if Ascii.eqb c quote then Some (EmptyString, rest)
      else if Ascii.eqb c "\"%char then None
      else match readString rest with
           | Some (t, rest') => Some (String c t, rest')
           | None => None
           end
  end.

Fixpoint readDigits (acc : Z) (s : string) : Z * string :=
  match s with
  | String c rest =>
      match digitOf c with
      | Some d => readDigits (10 * acc + d) rest
      | None => (acc, s)
      end
  | EmptyString => (acc, s)
  end.

Definition expect (c : ascii) (s : string) : option string :=
  match skipSpaces s with
  | String c' rest => if Ascii.eqb c c' then Some rest else None
  | EmptyString => None
  end.

Fixpoint readValue (fuel : nat) (s : string) : option (JSValue * string) :=
  match fuel with
  | O => None
  | S fuel' =>
      match skipSpaces s with
      | String c rest =>
          if Ascii.eqb c "{"%char then
            match skipSpaces rest with
            | String c' rest' =>
                if Ascii.eqb c' "}"%char then Some (JObj [], rest')
                else readMembers fuel' [] rest
            | EmptyString => None
            end
          else if Ascii.eqb c "["%char then
            match skipSpaces rest with
            | String c' rest' =>
                if Ascii.eqb c' "]"%char then Some (JArr [], rest')
                else readItems fuel' [] rest
            | EmptyString => None
            end
          else if Ascii.eqb c quote then
            match readString rest with
            | Some (t, rest') => Some (JStr t, rest')
            | None => None
            end
          else if Ascii.eqb c "-"%char then
            match rest with
            | String d _ =>
                match digitOf d with
                | Some _ => let (n, rest') := readDigits 0 rest in Some (JNum (- n), rest')
                | None => None
                end
            | EmptyString => None
            end
          else
            match digitOf c with
            | Some _ => let (n, rest') := readDigits 0 (String c rest) in Some (JNum n, rest')
            | None =>
                if String.prefix "true" (String c rest)
                then Some (JBool true, substring 4 (String.length rest) (String c rest))
                else if String.prefix "false" (String c rest)
                then Some (JBool false, substring 5 (String.length rest) (String c rest))
                else if String.prefix "null" (String c rest)
                then Some (JNull, substring 4 (String.length rest) (String c rest))
                else None
            end
      | EmptyString => None
      end
  end
with readMembers (fuel : nat) (acc : JSObject) (s : string) : option (JSValue * string) :=
  match fuel with
  | O => None
  | S fuel' =>
      match expect quote s with
      | Some afterQuote =>
          match readString afterQuote with
          | Some (key, afterKey) =>
              match expect ":"%char afterKey with
              | Some afterColon =>
                  match readValue fuel' afterColon with
                  | Some (v, afterValue) =>
                      match skipSpaces afterValue with
                      | String c rest =>
                          if Ascii.eqb c ","%char
                          then readMembers fuel' (setProp acc key v) rest
                          else if Ascii.eqb c "}"%char
                          then Some (JObj (setProp acc key v), rest)
                          else None
                      | EmptyString => None
                      end
                  | None => None
                  end
              | None => None
              end
          | None => None
          end
      | None => None
      end
  end
with readItems (fuel : nat) (acc : list JSValue) (s : string) : option (JSValue * string) :=
  match fuel with
  | O => None
  | S fuel' =>
      match readValue fuel' s with
      | Some (v, afterValue) =>
          match skipSpaces afterValue with
          | String c rest =>
              if Ascii.eqb c ","%char then readItems fuel' (acc ++ [v]) rest
              else if Ascii.eqb c "]"%char then Some (JArr (acc ++ [v]), rest)
              else None
          | EmptyString => None
          end
      | None => None
      end
  end.

(** The whole text must be one value. *)
Definition parseText (s : string) : option JSValue :=
  match readValue (S (String.length s)) s with
  | Some (v, rest) =>
      match skipSpaces rest with
      | EmptyString => Some v
      | String _ _ => None
      end
  | None => None
  end.

(** [JSON.parse] on a string; a number, a boolean or [null] is read back
    from its own text, anything else is not JSON text. *)
Definition JSON_parse (v : JSValue) : option JSValue :=
  match v with
  | JStr s => parseText s
  | JNum z => Some (JNum z)
  | JBool b => Some (JBool b)
  | JNull => Some JNull
  | JUndefined | JArr _ | JObj _ => None
  end.

(** [parseInt] on a run of decimal digits. *)
Definition parseInt (s : option string) : option Z :=
  match s with
  | Some (String c rest) => decimalFrom 0 (String c rest)
  | _ => None
  end.

(** A server with one table: every client connects, answers the count
    query with the number of rows (as decimal text, the way the driver
    returns a [bigint]) and a batch query with the ten rows from the bound
    offset on, and disconnects. *)
Definition tableClient (table : list QueryResultRow) : PgClient :=
  {| pg_connect := None;
     pg_query := fun text values =>
       match values with
       | [] => inr {| rows := [[("count", JStr (pretty (Z.of_nat (length table))))]] |}
       | offset :: _ =>
           inr {| rows := take (Z.to_nat EVENTS_PER_BATCH) (drop (Z.to_nat offset) table) |}
       end;
     pg_end := None |}.

Definition tableServer (table : list QueryResultRow) : ClientOptions -> nat -> PgClient :=
  fun _ _ => tableClient table.

(** A server that cannot be reached, and one whose queries fail. *)
Definition unreachableServer : ClientOptions -> nat -> PgClient :=
  fun _ _ =>
    {| pg_connect := Some (DriverErr "connect ECONNREFUSED");
       pg_query := fun _ _ => inl (DriverErr "not connected");
       pg_end := None |}.

Definition failingClient : PgClient :=
  {| pg_connect := None;
     pg_query := fun _ _ => inl (DriverErr "query failed");
     pg_end := None |}.

Definition failingServer : ClientOptions -> nat -> PgClient :=
  fun _ _ => failingClient.

(** The table server during an outage: the clients numbered by [down]
    connect but their queries are rejected. *)
Definition outageServer (table : list QueryResultRow) (down : nat -> bool)
  : ClientOptions -> nat -> PgClient :=
  fun _ id => if down id then failingClient else tableClient table.

Definition config : Config :=
  {| clusterHost := Some "example.abc123.us-east-1.redshift.amazonaws.com";
     clusterPort := Some "5439";
     dbName := Some "dev";
     dbUsername := Some "posthog";
     dbPassword := Some "secret";
     tableName := "events";
     orderByColumn := "id";
     transformationName := "default";
     importMechanism := "Import continuously" |}.

Definition historicalConfig : Config :=
  {| clusterHost := clusterHost config;
     clusterPort := clusterPort config;
     dbName := dbName config;
     dbUsername := dbUsername config;
     dbPassword := dbPassword config;
     tableName := tableName config;
     orderByColumn := orderByColumn config;
     transformationName := transformationName config;
     importMechanism := "Only import historical data" |}.

Definition noAttachments : Attachments := {| rowToEventMap := None |}.

(** The row of the specification's scenario:
    event "signup", timestamp "t", distinct_id "u1", properties {"a":1}. *)
Definition signupProperties : string := "{" +:+ dq +:+ "a" +:+ dq +:+ ":1}".

Definition signupRow : QueryResultRow :=
  [("event", JStr "signup"); ("timestamp", JStr "t");
   ("distinct_id", JStr "u1"); ("properties", JStr signupProperties)].

(** The mapping document that sends the column [event_name] to the event
    name, and a row with that column. *)
Definition eventNameMap : string :=
  "{" +:+ dq +:+ "event_name" +:+ dq +:+ ":" +:+ dq +:+ "event" +:+ dq +:+ "}".

Definition eventNameRow : QueryResultRow := [("event_name", JStr "signup")].

(** A mapping document with two columns, and a row that has both and a
    third column that the document does not name. *)
Definition columnMap : string :=
  "{" +:+ dq +:+ "event_name" +:+ dq +:+ ":" +:+ dq +:+ "event" +:+ dq +:+ ","
  +:+ dq +:+ "ts" +:+ dq +:+ ":" +:+ dq +:+ "timestamp" +:+ dq +:+ "}".

Definition wideRow : QueryResultRow :=
  [("extra", JNum 5); ("event_name", JStr "signup"); ("ts", JStr "t")].

(** A row whose JSON properties name [timestamp] and [source] themselves. *)
Definition overridingProperties : string :=
  "{" +:+ dq +:+ "timestamp" +:+ dq +:+ ":" +:+ dq +:+ "late" +:+ dq +:+ ","
  +:+ dq +:+ "source" +:+ dq +:+ ":" +:+ dq +:+ "elsewhere" +:+ dq +:+ "}".

Definition overridingRow : QueryResultRow :=
  [("event", JStr "signup"); ("timestamp", JStr "t");
   ("distinct_id", JStr "u1"); ("properties", JStr overridingProperties)].

(** A table of [n] rows told apart by their [distinct_id]. *)
Definition numberedRow (i : nat) : QueryResultRow :=
  [("event", JStr "signup"); ("timestamp", JStr "t");
   ("distinct_id", JNum (Z.of_nat i)); ("properties", JStr "{}")].

Definition numberedTable (n : nat) : list QueryResultRow :=
  map numberedRow (seq 0 n).

(** A world before the first start: nothing stored, nothing cached. *)
Definition freshWorld : World :=
  {| cache := ∅; storage := ∅;
     global := {| initialOffset := 0; totalRows := 0 |};
     clients := 0; scheduled := []; trace := [] |}.

(** The configuration with a transformation name that is not registered,
    and the one that selects the column map. *)
Definition unregisteredConfig : Config :=
  {| clusterHost := clusterHost config;
     clusterPort := clusterPort config;
     dbName := dbName config;
     dbUsername := dbUsername config;
     dbPassword := dbPassword config;
     tableName := tableName config;
     orderByColumn := orderByColumn config;
     transformationName := "no such transformation";
     importMechanism := importMechanism config |}.

Definition jsonMapConfig : Config :=
  {| clusterHost := clusterHost config;
     clusterPort := clusterPort config;
     dbName := dbName config;
     dbUsername := dbUsername config;
     dbPassword := dbPassword config;
     tableName := tableName config;
     orderByColumn := orderByColumn config;
     transformationName := "JSON Map";
     importMechanism := importMechanism config |}.

(** A row whose [properties] column is not JSON text, and a table with that
    row in third place. *)
Definition brokenRow : QueryResultRow :=
  [("event", JStr "signup"); ("timestamp", JStr "t");
   ("distinct_id", JNum 2); ("properties", JStr "{oops")].

Definition brokenTable : list QueryResultRow :=
  [numberedRow 0; numberedRow 1; brokenRow; numberedRow 3].

(** The world after a first start on [table] with [config]. *)
Definition startedWorld (table : list QueryResultRow) : World :=
  fst (setupPlugin parseInt (tableServer table) config freshWorld).

End Sample.

(** ** Observations on a world *)

(** The queries sent to the server, oldest first. *)
Fixpoint queriesOf (t : list Effect) : list (string * list Z) :=
  match t with
  | [] => []
  | PgQuery _ text values :: rest => (text, values) :: queriesOf rest
  | _ :: rest => queriesOf rest
  end.

(** The offsets bound to [$1] in the queries of a trace. *)
Definition fetchedOffsets (t : list Effect) : list Z :=
  flat_map (fun q => snd q) (queriesOf t).

(** The events handed to [posthog.capture]. *)
Fixpoint capturedOf (t : list Effect) : list (JSValue * JSValue) :=
  match t with
  | [] => []
  | Capture name props :: rest => (name, props) :: capturedOf rest
  | _ :: rest => capturedOf rest
  end.

(** The [distinct_id] of the captured events. *)
Definition capturedIds (t : list Effect) : list JSValue :=
  map (fun c => match snd c with
                | JObj props => getProp props "distinct_id"
                | _ => JUndefined
                end)
      (capturedOf t).

(** What was printed with [console.error]. *)
Fixpoint errorsOf (t : list Effect) : list Message :=
  match t with
  | [] => []
  | Console ErrorLevel m :: rest => m :: errorsOf rest
  | _ :: rest => errorsOf rest
  end.

(** The delays announced by the retry messages. *)
Fixpoint retryDelays (t : list Effect) : list Z :=
  match t with
  | [] => []
  | Console _ (MsgRetry _ _ nextRetrySeconds _) :: rest =>
      nextRetrySeconds :: retryDelays rest
  | _ :: rest => retryDelays rest
  end.

(** The clients that were connected and those that were ended. *)
Fixpoint connectedOf (t : list Effect) : list nat :=
  match t with
  | [] => []
  | PgConnect id :: rest => id :: connectedOf rest
  | _ :: rest => connectedOf rest
  end.

Fixpoint endedOf (t : list Effect) : list nat :=
  match t with
  | [] => []
  | PgEnd id :: rest => id :: endedOf rest
  | _ :: rest => endedOf rest
  end.

(** What a run of the delivery loop adds to the trace. *)
Definition deliveryEffects (events : list TransformedPluginEvent) : list Effect :=
  flat_map (fun e => [Console LogLevel (MsgEvent e); Capture (event e) (properties e)])
           events.

Definition addEffects (es : list Effect) (w : World) : World :=
  mkWorld (cache w) (storage w) (global w) (clients w) (scheduled w) (trace w ++ es).

(** The offset a job run works on, and the counter after its allocation
    step: a truthy [payload.offset] is reused and the counter stays, anything
    else takes the next tick of the counter. *)
Definition counterOf (w : World) : Z := default 0 (cache w !! REDIS_OFFSET_KEY).

Definition jobOffset (payload : ImportEventsJobPayload) (w : World) : Z :=
  if truthyNum (offset payload) then default 0 (offset payload)
  else initialOffset (global w) + counterOf w * EVENTS_PER_BATCH.

Definition cacheAfterAllocation (payload : ImportEventsJobPayload) (w : World)
  : gmap string Z :=
  if truthyNum (offset payload) then cache w
  else <[REDIS_OFFSET_KEY := counterOf w + 1]> (cache w).

(** The payload of the retry: [{ ...payload, retriesPerformedSoFar: n + 1 }]. *)
Definition retryOf (payload : ImportEventsJobPayload) : ImportEventsJobPayload :=
  {| offset := offset payload;
     retriesPerformedSoFar := retriesPerformedSoFar payload + 1 |}.

Definition continuation : ImportEventsJobPayload :=
  {| offset := None; retriesPerformedSoFar := 0 |}.

(** The client that the next call of [executeQuery] constructs. *)
Definition nextClient (parseInt : option string -> option Z)
    (server : ClientOptions -> nat -> PgClient) (config : Config) (w : World)
  : PgClient :=
  server (clientOptions parseInt config) (clients w).

(** The response that [executeQuery] builds from the driver's answer. *)
Definition responseOf (answer : Exn + QueryResult) : ExecuteQueryResponse :=
  match answer with
  | inr result => {| error := None; queryResult := Some result |}
  | inl err => {| error := Some err; queryResult := None |}
  end.

(** A payload with its falsy offset (zero) dropped, and a world whose
    scheduled payloads are so rewritten: what remains of a payload once
    [payload.offset] is only ever tested for truthiness. *)
Definition dropFalsyOffset (p : ImportEventsJobPayload) : ImportEventsJobPayload :=
  if truthyNum (offset p) then p
  else {| offset := None; retriesPerformedSoFar := retriesPerformedSoFar p |}.

Definition normalised (w : World) : World :=
  setScheduled (map (fun job => (dropFalsyOffset (fst job), snd job))) w.

(** Every character of a string passes a test. *)
Fixpoint allChars (p : ascii -> bool) (s : string) : bool :=
  match s with
  | EmptyString => true
  | String c rest => p c && allChars p rest
  end.

(** The first required option that the configuration lacks, in the order
    [setupPlugin] asks for them. *)
Definition firstMissing (config : Config) : option string :=
  find (fun option => negb (configHas config option)) requiredConfigOptions.

(** The columns of a row that a mapping document names. *)
Definition mappedColumns (entries : JSObject) (row : QueryResultRow) : QueryResultRow :=
  List.filter (fun col => hasOwn entries (fst col)) row.

(** Some column of the row is mapped to [target] by the mapping document
    and holds [v]. *)
Definition mappedTo (entries : JSObject) (row : QueryResultRow)
    (target : string) (v : JSValue) : Prop :=
  exists col, In col row /\ getProp entries (fst col) = JStr target /\ snd col = v.

(** A mapping document of the declared type [Record<string, string>]: every
    value is a string. *)
Definition stringValued (entries : JSObject) : bool :=
  forallb (fun kv => match snd kv with JStr _ => true | _ => false end) entries.

(** Some value of the mapping document is the string "__proto__". *)
Definition namesPrototype (entries : JSObject) : bool :=
  existsb (fun kv => match snd kv with
                     | JStr name => String.eqb name "__proto__"
                     | _ => false
                     end) entries.

(** A mapping document that the job can parse to: [null], or an object of
    strings. *)
Definition nullOrStringValued (m : JSValue) : Prop :=
  m = JNull \/ exists entries, m = JObj entries /\ stringValued entries = true.

(** The shape of what the column map returns, given the columns it has
    seen: the event name is the empty string or the value of a column mapped
    to "event"; every property is named by the mapping for some column, is
    not named "event", and holds that column's value. *)
Definition jsonMapShape (entries : JSObject) (seen : QueryResultRow)
    (e : TransformedPluginEvent) : Prop :=
  (event e = JStr "" \/ mappedTo entries seen "event" (event e))
  /\ exists props,
       properties e = JObj props
       /\ forall k, hasOwn props k = true ->
                    k <> "event" /\ mappedTo entries seen k (getProp props k).

(** The configuration passes the checks at the start of [setupPlugin]. *)
Definition validConfig (config : Config) : bool :=
  forallb (configHas config) requiredConfigOptions
  && match clusterHost config with
     | Some clusterHost => endsWith clusterHost "redshift.amazonaws.com"
     | None => false
     end.

Definition historical (config : Config) : bool :=
  String.eqb (importMechanism config) "Only import historical data".

(** The ceiling and the storage that [setupPlugin] leaves, for a table that
    counts [count] rows now. *)
Definition ceilingAfterSetup (config : Config) (w : World) (count : Z) : Z :=
  if historical config && truthyNum (storage w !! "total_rows_snapshot")
  then default 0 (storage w !! "total_rows_snapshot")
  else count.

Definition storageAfterSetup (config : Config) (w : World) (count : Z)
  : gmap string Z :=
  if historical config && negb (truthyNum (storage w !! "total_rows_snapshot"))
  then <["total_rows_snapshot" := count]> (storage w)
  else storage w.

(** ** Lemmas on the monad and on [executeQuery] *)

Ltac unfold_js :=
  unfold console_log, console_error, emit, schedule, cache_get, cache_set,
    cache_incr, storage_get, storage_set, rejectOr, liftOutcome, modify,
    getWorld, bind, ret, throw, unmodelled, tryCatch in *.

Ltac unfold_world :=
  unfold setScheduled, setClients, setCache, setStorage, setGlobal,
    addEffect, addEffects;
  cbn [cache storage global clients scheduled trace];
  rewrite <- ?app_assoc; cbn [app].

Lemma addEffects_nil w : addEffects [] w = w.
Proof. destruct w; unfold addEffects; simpl. by rewrite app_nil_r. Qed.

Lemma addEffect_addEffects e es w :
  addEffect e (addEffects es w) = addEffects (es ++ [e]) w.
Proof. unfold addEffect, addEffects; simpl. by rewrite app_assoc. Qed.

Lemma addEffects_addEffects es1 es2 w :
  addEffects es2 (addEffects es1 w) = addEffects (es1 ++ es2) w.
Proof. unfold addEffects; simpl. by rewrite app_assoc. Qed.

Lemma forEach_delivery events w :
  forEach events ingestEvent w
  = (addEffects (deliveryEffects events) w, Returned tt).
Proof.
  revert w. induction events as [|e events IH]; intros w.
  - simpl. unfold ret. by rewrite addEffects_nil.
  - simpl. unfold bind at 1. unfold ingestEvent. unfold_js. simpl. rewrite IH.
    f_equal. unfold addEffects, addEffect; simpl.
    by rewrite <- !app_assoc.
Qed.

Lemma queriesOf_app t1 t2 : queriesOf (t1 ++ t2) = queriesOf t1 ++ queriesOf t2.
Proof.
  induction t1 as [|e t1 IH]; [done|].
  destruct e; simpl; by rewrite ?IH.
Qed.

Lemma capturedOf_app t1 t2 : capturedOf (t1 ++ t2) = capturedOf t1 ++ capturedOf t2.
Proof.
  induction t1 as [|e t1 IH]; [done|].
  destruct e; simpl; by rewrite ?IH.
Qed.

Lemma queriesOf_delivery events : queriesOf (deliveryEffects events) = [].
Proof. induction events as [|e events IH]; [done|]. simpl. exact IH. Qed.

Section ExecuteQueryFacts.

Variable parseInt : option string -> option Z.
Variable server : ClientOptions -> nat -> PgClient.

Abbreviation client := (nextClient parseInt server).

Lemma executeQuery_resolves query values config w :
  pg_connect (client config w) = None ->
  pg_end (client config w) = None ->
  executeQuery parseInt server query values config w
  = (addEffects [PgConnect (clients w); PgQuery (clients w) query values;
                 PgEnd (clients w)]
                (setClients (S (clients w)) w),
     Returned (responseOf (pg_query (client config w) query values))).
Proof.
  unfold nextClient. intros Hc He. unfold executeQuery. unfold_js. simpl.
  rewrite Hc. simpl. rewrite He. simpl.
  unfold addEffects, addEffect, setClients; simpl.
  rewrite <- !app_assoc. simpl.
  by destruct (pg_query _ _ _).
Qed.

Lemma executeQuery_connect_rejects query values config w e :
  pg_connect (client config w) = Some e ->
  executeQuery parseInt server query values config w
  = (addEffects [PgConnect (clients w)] (setClients (S (clients w)) w), Thrown e).
Proof.
  unfold nextClient. intros Hc. unfold executeQuery. unfold_js. simpl.
  by rewrite Hc.
Qed.

Lemma executeQuery_end_rejects query values config w e :
  pg_connect (client config w) = None ->
  pg_end (client config w) = Some e ->
  executeQuery parseInt server query values config w
  = (addEffects [PgConnect (clients w); PgQuery (clients w) query values;
                 PgEnd (clients w)]
                (setClients (S (clients w)) w),
     Thrown e).
Proof.
  unfold nextClient. intros Hc He. unfold executeQuery. unfold_js. simpl.
  rewrite Hc. simpl. rewrite He. simpl.
  unfold addEffects, addEffect, setClients; simpl.
  by rewrite <- !app_assoc.
Qed.

End ExecuteQueryFacts.

(** ** Lemmas on one run of [importAndIngestEvents] *)

Section JobFacts.

Variable JSON_parse : JSValue -> option JSValue.
Variable parseInt : option string -> option Z.
Variable server : ClientOptions -> nat -> PgClient.

Abbreviation client := (nextClient parseInt server).
Abbreviation job := (importAndIngestEvents JSON_parse parseInt server).

Lemma counter_tick c : c + 1 - 1 = c.
Proof. lia. Qed.

(** Entry guard: a truthy offset with fifteen retries behind it. *)
Lemma job_abandoned payload config attachments w o :
  offset payload = Some o -> o <> 0 ->
  15 <= retriesPerformedSoFar payload ->
  job payload config attachments w
  = (addEffects [Console ErrorLevel (MsgSkipped o (o + EVENTS_PER_BATCH))] w,
     Returned tt).
Proof.
  intros Ho Hnz Hr. unfold importAndIngestEvents.
  rewrite Ho. simpl.
  destruct (Z.eqb_spec o 0) as [|_]; [done|]. simpl.
  destruct (Z.leb_spec 15 (retriesPerformedSoFar payload)) as [_|]; [|lia].
  reflexivity.
Qed.

(** Completion check: the offset is beyond the ceiling. *)
Lemma job_done payload config attachments w :
  truthyNum (offset payload) && (15 <=? retriesPerformedSoFar payload) = false ->
  jobOffset payload w > totalRows (global w) ->
  job payload config attachments w
  = (mkWorld (cacheAfterAllocation payload w) (storage w) (global w) (clients w)
             (scheduled w)
             (trace w ++ [Console LogLevel (MsgOffset (jobOffset payload w)
                                                      (totalRows (global w)));
                          Console LogLevel (MsgDone (tableName config))]),
     Returned tt).
Proof.
  intros Hg Hd. unfold importAndIngestEvents. rewrite Hg.
  unfold jobOffset, cacheAfterAllocation, counterOf in *.
  destruct (truthyNum (offset payload)) eqn:Ht.
  - unfold_js. simpl.
    destruct (Z.gtb_spec (default 0 (offset payload)) (totalRows (global w))); [|lia].
    unfold addEffect; simpl. by rewrite <- app_assoc.
  - unfold allocateOffset. unfold_js. simpl. rewrite counter_tick.
    destruct (Z.gtb_spec (initialOffset (global w)
                          + default 0 (cache w !! REDIS_OFFSET_KEY) * EVENTS_PER_BATCH)
                         (totalRows (global w))); [|lia].
    unfold addEffect, setCache; simpl. by rewrite <- app_assoc.
Qed.

(** The fetch fails: the driver rejects the query.  The job logs, schedules
    the retry and then reads [rows] of the missing result. *)
Ltac fetch_failure_path Hq :=
  unfold importAndIngestEvents;
  unfold jobOffset, cacheAfterAllocation, counterOf, nextClient,
    MAX_SAFE_INTEGER, MAX_FINITE_RETRY_EXPONENT in *;
  match goal with
  | Hg : _ && _ = false |- _ => rewrite Hg
  end;
  destruct (truthyNum (offset _)) eqn:?;
  try (exfalso;
       match goal with
       | Hg : true && (15 <=? _) = false |- _ =>
           cbn [andb] in Hg; apply Z.leb_gt in Hg; lia
       end);
  first
    [ progress unfold allocateOffset; unfold bind at 1; unfold bind at 1;
      unfold cache_incr; unfold bind at 1; unfold getWorld at 1;
      unfold bind at 1; unfold modify at 1; unfold ret at 1;
      unfold bind at 1; unfold getWorld at 1; unfold ret at 1;
      unfold bind at 1; unfold getWorld at 1;
      unfold bind at 1; unfold console_log at 1, emit at 1, modify at 1;
      cbn [global setCache fst snd]; rewrite counter_tick
    | unfold bind at 1; unfold ret at 1; unfold bind at 1; unfold getWorld at 1;
      unfold bind at 1; unfold console_log at 1, emit at 1, modify at 1 ];
  (match goal with
   | |- context [?a >? ?b] => destruct (Z.gtb_spec a b); [lia|]
   end);
  unfold bind at 1;
  rewrite executeQuery_resolves by assumption;
  unfold nextClient in *; cbn [clients global addEffect setCache] in *;
  rewrite Hq; cbn [responseOf queryFailed error queryResult];
  repeat match goal with
         | |- context [?a <? ?b] => destruct (Z.ltb_spec a b); [lia|]
         end;
  cbn [orb];
  (match goal with
   | |- context [?a <=? ?b] => destruct (Z.leb_spec a b); [|lia]
   | |- context [?a <=? ?b] => destruct (Z.leb_spec a b); [lia|]
   end);
  unfold_js; unfold retryOf; unfold_world; reflexivity.

Lemma job_fetch_failure payload config attachments w err :
  truthyNum (offset payload) && (15 <=? retriesPerformedSoFar payload) = false ->
  jobOffset payload w <= totalRows (global w) ->
  0 <= retriesPerformedSoFar payload <= MAX_FINITE_RETRY_EXPONENT ->
  pg_connect (client config w) = None ->
  pg_query (client config w) (batchQuery config) [jobOffset payload w] = inl err ->
  pg_end (client config w) = None ->
  job payload config attachments w
  = (mkWorld (cacheAfterAllocation payload w) (storage w) (global w) (S (clients w))
             (scheduled w
              ++ [(retryOf payload, RunIn (2 ^ retriesPerformedSoFar payload * 3))])
             (trace w
              ++ [Console LogLevel (MsgOffset (jobOffset payload w)
                                              (totalRows (global w)));
                  PgConnect (clients w);
                  PgQuery (clients w) (batchQuery config) [jobOffset payload w];
                  PgEnd (clients w);
                  Console LogLevel
                    (MsgRetry (jobOffset payload w)
                              (jobOffset payload w + EVENTS_PER_BATCH)
                              (2 ^ retriesPerformedSoFar payload * 3) (Some err))]),
     Thrown (TypeErr "Cannot read properties of null (reading 'rows')")).
Proof. intros Hg Hd Hr Hc Hq He. fetch_failure_path Hq. Qed.

(** The same from 1023 retries on, as long as the retry count is a safe
    integer: the delay is [Infinity]. *)
Lemma job_fetch_failure_overflow payload config attachments w err :
  truthyNum (offset payload) && (15 <=? retriesPerformedSoFar payload) = false ->
  jobOffset payload w <= totalRows (global w) ->
  MAX_FINITE_RETRY_EXPONENT < retriesPerformedSoFar payload <= MAX_SAFE_INTEGER ->
  pg_connect (client config w) = None ->
  pg_query (client config w) (batchQuery config) [jobOffset payload w] = inl err ->
  pg_end (client config w) = None ->
  job payload config attachments w
  = (mkWorld (cacheAfterAllocation payload w) (storage w) (global w) (S (clients w))
             (scheduled w ++ [(retryOf payload, RunInInfinity)])
             (trace w
              ++ [Console LogLevel (MsgOffset (jobOffset payload w)
                                              (totalRows (global w)));
                  PgConnect (clients w);
                  PgQuery (clients w) (batchQuery config) [jobOffset payload w];
                  PgEnd (clients w);
                  Console LogLevel
                    (MsgRetryInfinity (jobOffset payload w)
                                      (jobOffset payload w + EVENTS_PER_BATCH)
                                      (Some err))]),
     Thrown (TypeErr "Cannot read properties of null (reading 'rows')")).
Proof. intros Hg Hd Hr Hc Hq He. fetch_failure_path Hq. Qed.

(** The fetch succeeds and every row transforms: the events are captured
    in order and the continuation is scheduled at once. *)
Lemma job_success payload config attachments w result events :
  truthyNum (offset payload) && (15 <=? retriesPerformedSoFar payload) = false ->
  jobOffset payload w <= totalRows (global w) ->
  pg_connect (client config w) = None ->
  pg_query (client config w) (batchQuery config) [jobOffset payload w]
  = inr result ->
  pg_end (client config w) = None ->
  transformRows JSON_parse config attachments (rows result) = Returned events ->
  job payload config attachments w
  = (mkWorld (cacheAfterAllocation payload w) (storage w) (global w) (S (clients w))
             (scheduled w ++ [(continuation, RunNow)])
             (trace w
              ++ [Console LogLevel (MsgOffset (jobOffset payload w)
                                              (totalRows (global w)));
                  PgConnect (clients w);
                  PgQuery (clients w) (batchQuery config) [jobOffset payload w];
                  PgEnd (clients w)]
              ++ deliveryEffects events
              ++ [Console LogLevel
                    (MsgProcessed (jobOffset payload w)
                                  (jobOffset payload w + EVENTS_PER_BATCH)
                                  (length events) (1 <? length events)%nat)]),
     Returned tt).
Proof.
  intros Hg Hd Hc Hq He Ht. unfold importAndIngestEvents. rewrite Hg.
  unfold jobOffset, cacheAfterAllocation, counterOf in *.
  destruct (truthyNum (offset payload)) eqn:Hoff.
  - unfold bind at 1. unfold ret at 1. unfold bind at 1. unfold getWorld at 1.
    unfold bind at 1. unfold console_log at 1, emit at 1, modify at 1.
    destruct (Z.gtb_spec (default 0 (offset payload)) (totalRows (global w))); [lia|].
    unfold bind at 1.
    rewrite executeQuery_resolves by assumption.
    unfold nextClient in *. cbn [clients global addEffect] in *.
    rewrite Hq. cbn [responseOf queryFailed error queryResult].
    unfold bind at 1. unfold ret at 1. unfold bind at 1. unfold ret at 1.
    unfold bind at 1. unfold liftOutcome at 1. rewrite Ht.
    unfold bind at 1. rewrite forEach_delivery.
    unfold_js. unfold continuation. by unfold_world.
  - unfold allocateOffset. unfold bind at 1. unfold bind at 1.
    unfold cache_incr. unfold bind at 1. unfold getWorld at 1.
    unfold bind at 1. unfold modify at 1. unfold ret at 1.
    unfold bind at 1. unfold getWorld at 1. unfold ret at 1.
    unfold bind at 1. unfold getWorld at 1.
    unfold bind at 1. unfold console_log at 1, emit at 1, modify at 1.
    cbn [global setCache fst snd].
    rewrite counter_tick.
    destruct (Z.gtb_spec (initialOffset (global w)
                          + default 0 (cache w !! REDIS_OFFSET_KEY) * EVENTS_PER_BATCH)
                         (totalRows (global w))); [lia|].
    unfold bind at 1.
    rewrite executeQuery_resolves by assumption.
    unfold nextClient in *. cbn [clients addEffect setCache] in *.
    rewrite Hq. cbn [responseOf queryFailed error queryResult].
    unfold bind at 1. unfold ret at 1. unfold bind at 1. unfold ret at 1.
    unfold bind at 1. unfold liftOutcome at 1. rewrite Ht.
    unfold bind at 1. rewrite forEach_delivery.
    unfold_js. unfold continuation. by unfold_world.
Qed.

End JobFacts.

(** ** Lemmas on [setupPlugin] *)

Section SetupFacts.

Variable parseInt : option string -> option Z.
Variable server : ClientOptions -> nat -> PgClient.

Abbreviation client := (nextClient parseInt server).

Lemma setupPlugin_starts config w row others count :
  validConfig config = true ->
  pg_connect (client config w) = None ->
  pg_query (client config w) (countQuery config) []
  = inr {| rows := row :: others |} ->
  pg_end (client config w) = None ->
  Number (getProp row "count") = Some count ->
  setupPlugin parseInt server config w
  = (mkWorld (<[REDIS_OFFSET_KEY :=
                 default 0 (storage w !! REDIS_OFFSET_KEY) / EVENTS_PER_BATCH]>
                (cache w))
             (storageAfterSetup config w count)
             {| initialOffset := default 0 (storage w !! REDIS_OFFSET_KEY);
                totalRows := ceilingAfterSetup config w count |}
             (S (clients w))
             (scheduled w ++ [(continuation, RunIn 10)])
             (trace w ++ [PgConnect (clients w);
                          PgQuery (clients w) (countQuery config) [];
                          PgEnd (clients w)]),
     Returned tt).
Proof.
  intros Hv Hc Hq He Hn. unfold setupPlugin.
  unfold validConfig in Hv. apply andb_prop in Hv as [Hreq Hhost].
  unfold configHas in Hreq. cbn in Hreq.
  destruct (clusterHost config) as [clusterHost|] eqn:E1; [|done].
  destruct (clusterPort config) as [clusterPort|] eqn:E2; [|done].
  destruct (dbName config) as [dbName|] eqn:E3; [|done].
  destruct (dbUsername config) as [dbUsername|] eqn:E4; [|done].
  destruct (dbPassword config) as [dbPassword|] eqn:E5; [|done].
  unfold bind at 1. unfold configHas. cbn [forEach requiredConfigOptions].
  rewrite E1, E2, E3, E4, E5. cbn -[endsWith executeQuery countOf].
  unfold bind at 1. rewrite Hhost. cbn [negb]. unfold ret at 1.
  unfold bind at 1.
  rewrite executeQuery_resolves by assumption.
  rewrite Hq. cbn [responseOf queryFailed error queryResult].
  unfold bind at 1, ret at 1.
  unfold bind at 1. unfold countOf. cbn [queryResult rows]. rewrite Hn.
  unfold ret at 1.
  unfold ceilingAfterSetup, storageAfterSetup, historical.
  destruct (String.eqb (importMechanism config) "Only import historical data").
  - unfold_js. unfold_world.
    destruct (truthyNum (storage w !! "total_rows_snapshot"));
      cbn [negb andb cache storage global clients scheduled trace
           initialOffset totalRows];
      rewrite ?lookup_insert_ne by done; reflexivity.
  - unfold_js. by unfold_world.
Qed.

End SetupFacts.

(** ** The query executor *)

(** C5 (the code departs from the claim).  [executeQuery] awaits
    [pgClient.connect()] before its [try] block: when the server cannot be
    reached the rejection leaves [executeQuery] as an exception, no
    [{ error, queryResult }] value is returned, and [end()] is never called
    on the client. *)
Theorem executeQuery_connect_rejection_escapes :
  let r := executeQuery Sample.parseInt Sample.unreachableServer
                        (countQuery Sample.config) [] Sample.config
                        Sample.freshWorld in
  snd r = Thrown (DriverErr "connect ECONNREFUSED")
  /\ connectedOf (trace (fst r)) = [0%nat]
  /\ endedOf (trace (fst r)) = [].
Proof. vm_compute. auto. Qed.

(** What does hold: once the connection is made and [end()] resolves, a
    rejected query comes back as the [error] of the response, and the client
    is ended after the query either way. *)
Lemma executeQuery_tags_query_failure parseInt server query values config w :
  pg_connect (nextClient parseInt server config w) = None ->
  pg_end (nextClient parseInt server config w) = None ->
  exists response w',
    executeQuery parseInt server query values config w = (w', Returned response)
    /\ (forall err, pg_query (nextClient parseInt server config w) query values = inl err ->
                    response = {| error := Some err; queryResult := None |})
    /\ (forall result, pg_query (nextClient parseInt server config w) query values = inr result ->
                       response = {| error := None; queryResult := Some result |})
    /\ trace w' = trace w ++ [PgConnect (clients w); PgQuery (clients w) query values;
                              PgEnd (clients w)].
Proof.
  intros Hc He. eexists _, _. split; [by apply executeQuery_resolves|].
  repeat split.
  - intros err ->. reflexivity.
  - intros result ->. reflexivity.
Qed.

(** ** The batch import job: failures *)

(** C3 (the code departs from the claim).  After a start on a table of 25
    rows, the first job's query is rejected.  The job schedules the retry and
    then goes on to read [rows] of the missing result: a [TypeError] leaves
    the job.  Nothing is captured and no continuation is scheduled. *)
Theorem failed_fetch_throws_after_scheduling_retry :
  let server := Sample.outageServer (Sample.numberedTable 25) (fun id => (1 <=? id)%nat) in
  let w1 := fst (setupPlugin Sample.parseInt server Sample.config Sample.freshWorld) in
  let r := runJobs Sample.JSON_parse Sample.parseInt server 1 Sample.config
                   Sample.noAttachments w1 in
  snd r = [Some (Thrown (TypeErr "Cannot read properties of null (reading 'rows')"))]
  /\ scheduled (fst r) = [({| offset := None; retriesPerformedSoFar := 1 |}, RunIn 3)]
  /\ capturedOf (trace (fst r)) = [].
Proof. vm_compute. auto. Qed.

(** C2 (the code departs from the claim).  Same start; the first job, with
    no offset in its payload, is given offset 0 and its query is rejected.
    The retry it schedules is [{ ...payload, retriesPerformedSoFar: 1 }]: it
    carries no offset, so the retry run takes the next tick of the counter and
    queries offset 10.  The events captured are those of rows 10 to 19, and
    the runs that follow go on from 20: rows 0 to 9 are never fetched again. *)
Theorem retry_of_fresh_offset_loses_the_offset :
  let server := Sample.outageServer (Sample.numberedTable 25) (fun id => (id =? 1)%nat) in
  let w1 := fst (setupPlugin Sample.parseInt server Sample.config Sample.freshWorld) in
  let run n := fst (runJobs Sample.JSON_parse Sample.parseInt server n Sample.config
                            Sample.noAttachments w1) in
  fetchedOffsets (trace (run 1%nat)) = [0]
  /\ scheduled (run 1%nat) = [({| offset := None; retriesPerformedSoFar := 1 |}, RunIn 3)]
  /\ fetchedOffsets (trace (run 2%nat)) = [0; 10]
  /\ capturedIds (trace (run 2%nat)) = map JNum [10; 11; 12; 13; 14; 15; 16; 17; 18; 19]
  /\ fetchedOffsets (trace (run 4%nat)) = [0; 10; 20].
Proof. vm_compute. auto 10. Qed.




(** The sequence of the delays over successive failures of one offset, for a
    payload that pins offset 10: 3, 6, 12, 24 seconds, each time for the same
    query. *)
Example backoff_sequence :
  let pinned := {| offset := Some 10; retriesPerformedSoFar := 0 |} in
  let w0 := setScheduled (fun _ => [(pinned, RunNow)])
                         (Sample.startedWorld (Sample.numberedTable 25)) in
  let w := fst (runJobs Sample.JSON_parse Sample.parseInt Sample.failingServer 4
                        Sample.config Sample.noAttachments w0) in
  retryDelays (trace w) = [3; 6; 12; 24]
  /\ fetchedOffsets (trace w) = [10; 10; 10; 10]
  /\ scheduled w = [({| offset := Some 10; retriesPerformedSoFar := 4 |}, RunIn 24)].
Proof. vm_compute. repeat split; reflexivity. Qed.

(** C4 (the code departs from the claim).  A start on a table of 300 rows,
    then an outage: every batch query is rejected.  Each retry is scheduled
    as [{ ...payload, retriesPerformedSoFar: n + 1 }] from a payload without
    offset, so no payload of the chain carries an offset and the entry guard,
    which asks for one, never stops the chain.  After seventeen runs the
    payloads with fifteen and with sixteen retries behind them have each
    fetched a fresh offset and scheduled a further retry; nothing was logged
    as skipped, and a job with seventeen retries is waiting. *)
Theorem retry_chain_passes_the_ceiling :
  let table := Sample.numberedTable 300 in
  let server := Sample.outageServer table (fun id => (1 <=? id)%nat) in
  let w := fst (runJobs Sample.JSON_parse Sample.parseInt server 17 Sample.config
                        Sample.noAttachments (Sample.startedWorld table)) in
  fetchedOffsets (trace w) = map (fun i => 10 * Z.of_nat i) (seq 0 17)
  /\ retryDelays (trace w) = map (fun i => 3 * 2 ^ Z.of_nat i) (seq 0 17)
  /\ errorsOf (trace w) = []
  /\ scheduled w
     = [({| offset := None; retriesPerformedSoFar := 17 |}, RunIn 196608)].
Proof. vm_compute. repeat split; reflexivity. Qed.

(** What does hold of C2's second half: a payload that pins a non-zero
    offset, below the retry ceiling, queries that offset, and the retry
    scheduled on failure pins the same offset with one more retry counted. *)
Lemma pinned_offset_is_kept_by_retry
    JSON_parse parseInt server payload config attachments w o err :
  offset payload = Some o ->
  o <> 0 ->
  0 <= retriesPerformedSoFar payload < 15 ->
  o <= totalRows (global w) ->
  pg_connect (nextClient parseInt server config w) = None ->
  pg_query (nextClient parseInt server config w) (batchQuery config) [o] = inl err ->
  pg_end (nextClient parseInt server config w) = None ->
  let w' := fst (importAndIngestEvents JSON_parse parseInt server payload config
                                       attachments w) in
  queriesOf (trace w') = queriesOf (trace w) ++ [(batchQuery config, [o])]
  /\ scheduled w'
     = scheduled w
       ++ [({| offset := Some o;
               retriesPerformedSoFar := retriesPerformedSoFar payload + 1 |},
            RunIn (2 ^ retriesPerformedSoFar payload * 3))].
Proof.
  intros Ho Hnz Hr Hle Hc Hq He.
  assert (truthyNum (offset payload) = true) as Ht.
  { rewrite Ho. cbn. by destruct (Z.eqb_spec o 0). }
  assert (jobOffset payload w = o) as Hjo.
  { unfold jobOffset. by rewrite Ht, Ho. }
  rewrite (job_fetch_failure JSON_parse parseInt server payload config attachments
                             w err).
  - cbn [fst trace scheduled]. rewrite Hjo, queriesOf_app. unfold retryOf.
    by rewrite Ho.
  - rewrite Ht. cbn. destruct (Z.leb_spec 15 (retriesPerformedSoFar payload)); [lia|done].
  - by rewrite Hjo.
  - unfold MAX_FINITE_RETRY_EXPONENT. lia.
  - done.
  - by rewrite Hjo.
  - done.
Qed.

(** ** Restart *)

(** The allocation that follows the seeding of [setupPlugin]: with the
    durable offset [X] as [global.initialOffset] and [floor(X / 10)] in the
    counter, the first fresh offset is [X + floor(X / 10) * 10]. *)
Lemma allocation_after_seeding X w :
  snd (allocateOffset
         (setCache (insert REDIS_OFFSET_KEY (X / EVENTS_PER_BATCH))
                   (setGlobal (fun g => {| initialOffset := X;
                                           totalRows := totalRows g |}) w)))
  = Returned (X + X / EVENTS_PER_BATCH * EVENTS_PER_BATCH).
Proof.
  unfold allocateOffset. unfold_js. unfold_world. cbn [snd initialOffset].
  rewrite lookup_insert_eq. cbn [default]. by rewrite counter_tick.
Qed.

Lemma seeded_allocation_resumes_iff X :
  X + X / EVENTS_PER_BATCH * EVENTS_PER_BATCH = X <-> 0 <= X < 10.
Proof.
  unfold EVENTS_PER_BATCH. split.
  - intros H. assert (X / 10 = 0) as H0 by lia.
    apply Z.div_small_iff in H0; lia.
  - intros H. rewrite Z.div_small by lia. lia.
Qed.

(** The same through [setupPlugin]: with [X] in storage under the offset
    key, the job scheduled by the start works on [X + floor(X / 10) * 10]. *)
Lemma first_offset_after_start parseInt server config w row others count :
  validConfig config = true ->
  pg_connect (nextClient parseInt server config w) = None ->
  pg_query (nextClient parseInt server config w) (countQuery config) []
  = inr {| rows := row :: others |} ->
  pg_end (nextClient parseInt server config w) = None ->
  Number (getProp row "count") = Some count ->
  let X := default 0 (storage w !! REDIS_OFFSET_KEY) in
  jobOffset continuation (fst (setupPlugin parseInt server config w))
  = X + X / EVENTS_PER_BATCH * EVENTS_PER_BATCH.
Proof.
  intros Hv Hc Hq He Hn X.
  rewrite (setupPlugin_starts parseInt server config w row others count Hv Hc Hq He Hn).
  unfold jobOffset, counterOf. cbn [fst offset continuation truthyNum global cache
                                    initialOffset].
  by rewrite lookup_insert_eq.
Qed.

(** C1 (the code departs from the claim).  A first start on a table of 25
    rows, one batch (offset 0), then shutdown: [teardownPlugin] persists
    offset 10.  After the restart [setupPlugin] loads 10 as
    [global.initialOffset] and seeds the counter with 1; the first job run
    increments the counter to 2 and computes 10 + (2 - 1) * 10 = 20.  Rows 10
    to 19 are skipped. *)
Theorem restart_resumes_beyond_persisted_offset :
  let server := Sample.tableServer (Sample.numberedTable 25) in
  let run w := fst (runJobs Sample.JSON_parse Sample.parseInt server 1 Sample.config
                            Sample.noAttachments w) in
  let w1 := run (Sample.startedWorld (Sample.numberedTable 25)) in
  let w2 := fst (teardownPlugin w1) in
  let w3 := fst (setupPlugin Sample.parseInt server Sample.config w2) in
  let w4 := run w3 in
  storage w2 !! REDIS_OFFSET_KEY = Some 10
  /\ initialOffset (global w3) = 10
  /\ cache w3 !! REDIS_OFFSET_KEY = Some 1
  /\ fetchedOffsets (trace w4) = [0; 20]
  /\ capturedIds (trace w4)
     = map JNum [0; 1; 2; 3; 4; 5; 6; 7; 8; 9; 20; 21; 22; 23; 24].
Proof. vm_compute. repeat split; reflexivity. Qed.

(** ** Historical mode *)

(** A start in historical mode with a non-zero snapshot in storage: the
    ceiling is the snapshot, whatever the table counts now. *)
Lemma historical_ceiling_is_snapshot parseInt server config w row others count snapshot :
  validConfig config = true ->
  importMechanism config = "Only import historical data" ->
  storage w !! "total_rows_snapshot" = Some snapshot ->
  snapshot <> 0 ->
  pg_connect (nextClient parseInt server config w) = None ->
  pg_query (nextClient parseInt server config w) (countQuery config) []
  = inr {| rows := row :: others |} ->
  pg_end (nextClient parseInt server config w) = None ->
  Number (getProp row "count") = Some count ->
  let r := setupPlugin parseInt server config w in
  snd r = Returned tt
  /\ totalRows (global (fst r)) = snapshot
  /\ storage (fst r) = storage w.
Proof.
  intros Hv Hm Hs Hnz Hc Hq He Hn.
  rewrite (setupPlugin_starts parseInt server config w row others count Hv Hc Hq He Hn).
  cbn [fst snd global totalRows storage].
  unfold ceilingAfterSetup, storageAfterSetup, historical.
  rewrite Hm, Hs. cbn [truthyNum].
  destruct (Z.eqb_spec snapshot 0) as [|_]; [done|].
  by rewrite String.eqb_refl.
Qed.

(** C8 (the code departs from the claim).  Historical mode, first start on an
    empty table: the snapshot recorded is 0.  The table then grows to five
    rows and the plugin restarts: [!totalRowsSnapshot] holds for the stored
    0, so the snapshot is taken again and the ceiling is the live count 5. *)
Theorem empty_snapshot_is_taken_again :
  let w1 := fst (setupPlugin Sample.parseInt (Sample.tableServer [])
                             Sample.historicalConfig Sample.freshWorld) in
  let w2 := fst (setupPlugin Sample.parseInt
                             (Sample.tableServer (Sample.numberedTable 5))
                             Sample.historicalConfig w1) in
  storage w1 !! "total_rows_snapshot" = Some 0
  /\ totalRows (global w1) = 0
  /\ totalRows (global w2) = 5
  /\ storage w2 !! "total_rows_snapshot" = Some 5.
Proof. vm_compute. repeat split; reflexivity. Qed.

(** ** The default transformation *)

(** C9.  On the row with event "signup", timestamp "t", distinct_id "u1" and
    the JSON text of an object with [a] equal to 1 as properties, the entry
    registered under "default" returns the event "signup" whose properties are
    the timestamp, the distinct_id, the parsed [a] and the marker
    [source: 'redshift_import']. *)
Theorem default_transformation_on_signup_row JSON_parse :
  JSON_parse (JStr Sample.signupProperties) = Some (JObj [("a", JNum 1)]) ->
  exists transform,
    transformations JSON_parse "default" = Some transform
    /\ forall attachments,
         transform Sample.signupRow attachments
         = Returned {| event := JStr "signup";
                       properties :=
                         JObj [("timestamp", JStr "t"); ("distinct_id", JStr "u1");
                               ("a", JNum 1); ("source", JStr "redshift_import")] |}.
Proof.
  intros Hparse. eexists. split; [reflexivity|].
  intros attachments. unfold transformDefault.
  change (getProp Sample.signupRow "properties") with (JStr Sample.signupProperties).
  rewrite Hparse. reflexivity.
Qed.

Lemma default_transformation_witness :
  Sample.JSON_parse (JStr Sample.signupProperties) = Some (JObj [("a", JNum 1)])
  /\ exists transform,
       transformations Sample.JSON_parse "default" = Some transform
       /\ forall attachments,
            transform Sample.signupRow attachments
            = Returned {| event := JStr "signup";
                          properties :=
                            JObj [("timestamp", JStr "t"); ("distinct_id", JStr "u1");
                                  ("a", JNum 1); ("source", JStr "redshift_import")] |}.
Proof.
  split; [reflexivity|].
  apply (default_transformation_on_signup_row Sample.JSON_parse). reflexivity.
Defined.

(** The column-map transformation on the specification's scenario: the
    column mapped to "event" names the event, nothing goes to the
    properties. *)
Example json_map_transformation_on_event_name_row :
  transformRow Sample.JSON_parse
               {| clusterHost := None; clusterPort := None; dbName := None;
                  dbUsername := None; dbPassword := None; tableName := "events";
                  orderByColumn := "id"; transformationName := "JSON Map";
                  importMechanism := "Import continuously" |}
               {| rowToEventMap := Some Sample.eventNameMap |}
               Sample.eventNameRow
  = Returned {| event := JStr "signup"; properties := JObj [] |}.
Proof. reflexivity. Qed.

(** ** The batch import job: a table of 25 rows *)

Lemma fetchedOffsets_app t1 t2 :
  fetchedOffsets (t1 ++ t2) = fetchedOffsets t1 ++ fetchedOffsets t2.
Proof. unfold fetchedOffsets. by rewrite queriesOf_app, flat_map_app. Qed.

Section TableRuns.

Variable JSON_parse : JSValue -> option JSValue.
Variable parseInt : option string -> option Z.
Variable table : list QueryResultRow.
Variable config : Config.
Variable attachments : Attachments.

Hypothesis transforms :
  forall row, In row table ->
              exists e, transformRow JSON_parse config attachments row = Returned e.

Lemma transformRows_total rows_ :
  (forall row, In row rows_ -> In row table) ->
  exists events, transformRows JSON_parse config attachments rows_ = Returned events.
Proof.
  induction rows_ as [|row rest IH]; intros Hin.
  - by exists [].
  - destruct (transforms row) as [e He]; [apply Hin; by left|].
    destruct IH as [es Hes]; [intros r Hr; apply Hin; by right|].
    exists (e :: es). cbn [transformRows]. by rewrite He, Hes.
Qed.

Lemma batch_rows_in_table o row :
  In row (take (Z.to_nat EVENTS_PER_BATCH) (drop (Z.to_nat o) table)) -> In row table.
Proof.
  intros H. apply list_elem_of_In in H. apply list_elem_of_In.
  apply (subseteq_drop (Z.to_nat o) table).
  by apply (subseteq_take (Z.to_nat EVENTS_PER_BATCH) (drop (Z.to_nat o) table)).
Qed.

Abbreviation runNext :=
  (runNextJob JSON_parse parseInt (Sample.tableServer table) config attachments).

Lemma table_run_fetches w k at_ :
  scheduled w = [(continuation, at_)] ->
  cache w !! REDIS_OFFSET_KEY = Some k ->
  initialOffset (global w) + k * EVENTS_PER_BATCH <= totalRows (global w) ->
  exists w',
    runNext w = (w', Some (Returned tt))
    /\ scheduled w' = [(continuation, RunNow)]
    /\ cache w' !! REDIS_OFFSET_KEY = Some (k + 1)
    /\ global w' = global w
    /\ fetchedOffsets (trace w')
       = fetchedOffsets (trace w) ++ [initialOffset (global w) + k * EVENTS_PER_BATCH].
Proof.
  intros Hs Hk Hle.
  set (o := initialOffset (global w) + k * EVENTS_PER_BATCH) in *.
  destruct (transformRows_total
              (take (Z.to_nat EVENTS_PER_BATCH) (drop (Z.to_nat o) table)))
    as [events Hev]; [intros row; apply batch_rows_in_table|].
  unfold runNextJob. rewrite Hs.
  assert (jobOffset continuation (setScheduled (fun _ => []) w) = o) as Ho.
  { unfold jobOffset, counterOf. cbn. by rewrite Hk. }
  erewrite job_success; [| reflexivity | rewrite Ho; exact Hle | reflexivity
                         | rewrite Ho; reflexivity | reflexivity | exact Hev].
  eexists. split; [reflexivity|].
  cbn [scheduled cache global trace setScheduled].
  repeat split.
  - unfold cacheAfterAllocation, counterOf. cbn. rewrite Hk. cbn.
    by rewrite lookup_insert_eq.
  - rewrite Ho. rewrite !fetchedOffsets_app. unfold fetchedOffsets at 3 4.
    rewrite queriesOf_delivery. reflexivity.
Qed.

Lemma table_run_done w k at_ :
  scheduled w = [(continuation, at_)] ->
  cache w !! REDIS_OFFSET_KEY = Some k ->
  initialOffset (global w) + k * EVENTS_PER_BATCH > totalRows (global w) ->
  exists w',
    runNext w = (w', Some (Returned tt))
    /\ scheduled w' = []
    /\ trace w'
       = trace w ++ [Console LogLevel
                       (MsgOffset (initialOffset (global w) + k * EVENTS_PER_BATCH)
                                  (totalRows (global w)));
                     Console LogLevel (MsgDone (tableName config))].
Proof.
  intros Hs Hk Hgt.
  unfold runNextJob. rewrite Hs.
  assert (jobOffset continuation (setScheduled (fun _ => []) w)
          = initialOffset (global w) + k * EVENTS_PER_BATCH) as Ho.
  { unfold jobOffset, counterOf. cbn. by rewrite Hk. }
  erewrite job_done; [| reflexivity | rewrite Ho; exact Hgt].
  eexists. split; [reflexivity|].
  cbn [scheduled trace setScheduled global]. rewrite Ho. by split.
Qed.

End TableRuns.

(** C6.  A table of 25 rows whose rows all transform, nothing in storage: the
    start sets the ceiling to 25 and the initial offset to 0 and schedules the
    first job; the first three runs return, fetch the offsets 0, 10 and 20 in
    that order and each leaves exactly one job scheduled at once, with no
    offset and no retry behind it; the fourth run logs offset 30 against the
    ceiling 25, fetches nothing and schedules nothing; no fifth job exists. *)
Theorem import_of_25_rows JSON_parse parseInt config attachments table c g n :
  validConfig config = true ->
  length table = 25%nat ->
  (forall row, In row table ->
               exists e, transformRow JSON_parse config attachments row = Returned e) ->
  let server := Sample.tableServer table in
  let w0 := {| cache := c; storage := ∅; global := g; clients := n;
               scheduled := []; trace := [] |} in
  let started := setupPlugin parseInt server config w0 in
  let run k := runJobs JSON_parse parseInt server k config attachments (fst started) in
  snd started = Returned tt
  /\ initialOffset (global (fst started)) = 0
  /\ totalRows (global (fst started)) = 25
  /\ scheduled (fst started) = [(continuation, RunIn 10)]
  /\ snd (run 4%nat) = repeat (Some (Returned tt)) 4
  /\ fetchedOffsets (trace (fst (run 1%nat))) = [0]
  /\ scheduled (fst (run 1%nat)) = [(continuation, RunNow)]
  /\ fetchedOffsets (trace (fst (run 2%nat))) = [0; 10]
  /\ scheduled (fst (run 2%nat)) = [(continuation, RunNow)]
  /\ fetchedOffsets (trace (fst (run 3%nat))) = [0; 10; 20]
  /\ scheduled (fst (run 3%nat)) = [(continuation, RunNow)]
  /\ (exists before,
        trace (fst (run 4%nat))
        = before ++ [Console LogLevel (MsgOffset 30 25);
                     Console LogLevel (MsgDone (tableName config))])
  /\ fetchedOffsets (trace (fst (run 4%nat))) = [0; 10; 20]
  /\ scheduled (fst (run 4%nat)) = []
  /\ snd (run 5%nat) = repeat (Some (Returned tt)) 4 ++ [None].
Proof.
  intros Hv Hlen Htr server w0 started run.
  assert (started
          = ({| cache := <[REDIS_OFFSET_KEY := 0]> c; storage := storageAfterSetup config w0 25;
                global := {| initialOffset := 0; totalRows := 25 |};
                clients := S n; scheduled := [(continuation, RunIn 10)];
                trace := [PgConnect n; PgQuery n (countQuery config) []; PgEnd n] |},
             Returned tt)) as Hstart.
  { subst started.
    erewrite (setupPlugin_starts parseInt server config w0 _ [] 25 Hv);
      [| reflexivity | reflexivity | reflexivity | cbn; rewrite Hlen; reflexivity].
    unfold ceilingAfterSetup. cbn [storage w0 cache global clients scheduled trace].
    rewrite !lookup_empty. cbn [truthyNum default]. rewrite andb_false_r.
    reflexivity. }
  set (w1 := fst started).
  assert (Hs1 : scheduled w1 = [(continuation, RunIn 10)]) by (subst w1; by rewrite Hstart).
  assert (Hc1 : cache w1 !! REDIS_OFFSET_KEY = Some 0)
    by (subst w1; rewrite Hstart; apply lookup_insert_eq).
  assert (Hg1 : global w1 = {| initialOffset := 0; totalRows := 25 |})
    by (subst w1; by rewrite Hstart).
  assert (Hf1 : fetchedOffsets (trace w1) = []) by (subst w1; by rewrite Hstart).
  destruct (table_run_fetches JSON_parse parseInt table config attachments Htr
                              w1 0 (RunIn 10) Hs1 Hc1)
    as (w2 & Hr2 & Hs2 & Hc2 & Hg2 & Hf2); [rewrite Hg1; unfold EVENTS_PER_BATCH; cbn [initialOffset totalRows]; lia|].
  rewrite Hg1, Hf1 in Hf2. rewrite Hg1 in Hg2.
  destruct (table_run_fetches JSON_parse parseInt table config attachments Htr
                              w2 (0 + 1) RunNow Hs2 Hc2)
    as (w3 & Hr3 & Hs3 & Hc3 & Hg3 & Hf3); [rewrite Hg2; unfold EVENTS_PER_BATCH; cbn [initialOffset totalRows]; lia|].
  rewrite Hg2, Hf2 in Hf3. rewrite Hg2 in Hg3.
  destruct (table_run_fetches JSON_parse parseInt table config attachments Htr
                              w3 (0 + 1 + 1) RunNow Hs3 Hc3)
    as (w4 & Hr4 & Hs4 & Hc4 & Hg4 & Hf4); [rewrite Hg3; unfold EVENTS_PER_BATCH; cbn [initialOffset totalRows]; lia|].
  rewrite Hg3, Hf3 in Hf4. rewrite Hg3 in Hg4.
  destruct (table_run_done JSON_parse parseInt table config attachments
                           w4 (0 + 1 + 1 + 1) RunNow Hs4 Hc4)
    as (w5 & Hr5 & Hs5 & Ht5); [rewrite Hg4; unfold EVENTS_PER_BATCH; cbn [initialOffset totalRows]; lia|].
  rewrite Hg4 in Ht5.
  assert (Hr6 : runNextJob JSON_parse parseInt server config attachments w5 = (w5, None)).
  { unfold runNextJob. by rewrite Hs5. }
  subst run. cbn beta. fold w1. subst server.
  cbn [runJobs]. rewrite Hr2, Hr3, Hr4, Hr5, Hr6.
  cbn [fst snd repeat app].
  rewrite Hg1, Hs1, Hf2, Hf3, Hs2, Hs3, Hs4, Hs5, Ht5.
  rewrite fetchedOffsets_app, Hf4.
  rewrite Hstart.
  repeat split; try reflexivity.
  by eexists.
Qed.

Lemma import_of_25_rows_witness :
  let server := Sample.tableServer (Sample.numberedTable 25) in
  let started := setupPlugin Sample.parseInt server Sample.config Sample.freshWorld in
  let run k := runJobs Sample.JSON_parse Sample.parseInt server k Sample.config
                       Sample.noAttachments (fst started) in
  snd started = Returned tt
  /\ initialOffset (global (fst started)) = 0
  /\ totalRows (global (fst started)) = 25
  /\ scheduled (fst started) = [(continuation, RunIn 10)]
  /\ snd (run 4%nat) = repeat (Some (Returned tt)) 4
  /\ fetchedOffsets (trace (fst (run 1%nat))) = [0]
  /\ scheduled (fst (run 1%nat)) = [(continuation, RunNow)]
  /\ fetchedOffsets (trace (fst (run 2%nat))) = [0; 10]
  /\ scheduled (fst (run 2%nat)) = [(continuation, RunNow)]
  /\ fetchedOffsets (trace (fst (run 3%nat))) = [0; 10; 20]
  /\ scheduled (fst (run 3%nat)) = [(continuation, RunNow)]
  /\ (exists before,
        trace (fst (run 4%nat))
        = before ++ [Console LogLevel (MsgOffset 30 25);
                     Console LogLevel (MsgDone (tableName Sample.config))])
  /\ fetchedOffsets (trace (fst (run 4%nat))) = [0; 10; 20]
  /\ scheduled (fst (run 4%nat)) = []
  /\ snd (run 5%nat) = repeat (Some (Returned tt)) 4 ++ [None].
Proof.
  apply (import_of_25_rows Sample.JSON_parse Sample.parseInt Sample.config
                           Sample.noAttachments (Sample.numberedTable 25)
                           ∅ {| initialOffset := 0; totalRows := 0 |} 0%nat).
  - reflexivity.
  - reflexivity.
  - intros row Hin. simpl in Hin.
    repeat (destruct Hin as [<-|Hin]; [eexists; reflexivity|]).
    destruct Hin.
Defined.

(** ** A payload whose offset is zero *)

Lemma world_eq w1 w2 :
  cache w1 = cache w2 -> storage w1 = storage w2 -> global w1 = global w2 ->
  clients w1 = clients w2 -> scheduled w1 = scheduled w2 -> trace w1 = trace w2 ->
  w1 = w2.
Proof. destruct w1, w2; simpl; by intros -> -> -> -> -> ->. Qed.

(** Case analysis on everything a run branches on; the delivery loop is
    replaced by its effect. *)
Ltac split_run :=
  repeat match goal with
         | |- context [forEach ?es ingestEvent ?w] => rewrite (forEach_delivery es w)
         | |- context [match ?x with _ => _ end] =>
             lazymatch x with
             | context [match _ with _ => _ end] => fail
             | _ => destruct x eqn:?
             end
         | |- context [if ?x then _ else _] =>
             lazymatch x with
             | context [match _ with _ => _ end] => fail
             | context [if _ then _ else _] => fail
             | _ => destruct x eqn:?
             end
         end.

Ltac project_world :=
  cbn [cache storage global clients scheduled trace normalised
       setScheduled setClients setCache setStorage setGlobal addEffect addEffects].


(** * Further properties of the plugin *)

(** ** [sanitizeSqlIdentifier] *)

(** X1.  Whatever the configured name, the identifier that reaches the query
    text holds only letters, digits, underscores and dots. *)
Theorem sanitizeSqlIdentifier_keeps_only_identifier_chars unquotedIdentifier :
  allChars identifierChar (sanitizeSqlIdentifier unquotedIdentifier) = true.
Proof.
  induction unquotedIdentifier as [|c rest IH]; [reflexivity|].
  cbn [sanitizeSqlIdentifier]. destruct (identifierChar c) eqn:Hc; [|exact IH].
  cbn [allChars]. by rewrite Hc, IH.
Qed.

(** X2.  The sanitizer returns its argument unchanged exactly when the
    argument already holds nothing but identifier characters: a clean name is
    never altered, and any other name is. *)
Theorem sanitizeSqlIdentifier_fixes_exactly_clean_names unquotedIdentifier :
  sanitizeSqlIdentifier unquotedIdentifier = unquotedIdentifier
  <-> allChars identifierChar unquotedIdentifier = true.
Proof.
  split.
  - intros H. rewrite <- H.
    induction unquotedIdentifier as [|c rest IH]; [reflexivity|].
    clear H IH. revert c.
    induction rest as [|c' rest IH]; intros c; cbn [sanitizeSqlIdentifier].
    + destruct (identifierChar c) eqn:Hc; [|reflexivity]. cbn. by rewrite Hc.
    + destruct (identifierChar c) eqn:Hc; [|apply IH].
      cbn [allChars]. rewrite Hc. apply IH.
  - induction unquotedIdentifier as [|c rest IH]; [reflexivity|].
    cbn [allChars sanitizeSqlIdentifier]. intros H.
    apply andb_prop in H as [Hc Hrest]. rewrite Hc. by rewrite IH.
Qed.

(** X3.  Sanitizing goes through concatenation, so a dotted name assembled
    from parts is sanitized part by part; and sanitizing twice changes
    nothing more. *)
Theorem sanitizeSqlIdentifier_append_and_idempotent a b :
  sanitizeSqlIdentifier (a +:+ b)
  = sanitizeSqlIdentifier a +:+ sanitizeSqlIdentifier b
  /\ sanitizeSqlIdentifier (sanitizeSqlIdentifier a) = sanitizeSqlIdentifier a.
Proof.
  split.
  - induction a as [|c rest IH]; [reflexivity|].
    change (String c rest +:+ b) with (String c (rest +:+ b)).
    cbn [sanitizeSqlIdentifier].
    destruct (identifierChar c); [|exact IH].
    change (String c (sanitizeSqlIdentifier rest) +:+ sanitizeSqlIdentifier b)
      with (String c (sanitizeSqlIdentifier rest +:+ sanitizeSqlIdentifier b)).
    by rewrite IH.
  - induction a as [|c rest IH]; [reflexivity|].
    cbn [sanitizeSqlIdentifier]. destruct (identifierChar c) eqn:Hc; [|exact IH].
    cbn [sanitizeSqlIdentifier]. by rewrite Hc, IH.
Qed.

(** ** [executeQuery] *)

(** X4.  A call of [executeQuery], whatever the server does, constructs
    exactly one client and tries to connect it; it touches neither the cache,
    nor the storage, nor [global], nor the scheduled jobs.  After the
    connection attempt the trace holds either nothing more or the query
    followed by the end of that client. *)
Theorem executeQuery_frame parseInt server query values config w :
  let r := executeQuery parseInt server query values config w in
  cache (fst r) = cache w
  /\ storage (fst r) = storage w
  /\ global (fst r) = global w
  /\ scheduled (fst r) = scheduled w
  /\ clients (fst r) = S (clients w)
  /\ exists rest,
       trace (fst r) = trace w ++ PgConnect (clients w) :: rest
       /\ (rest = []
           \/ rest = [PgQuery (clients w) query values; PgEnd (clients w)]).
Proof.
  cbn zeta.
  destruct (pg_connect (nextClient parseInt server config w)) as [e|] eqn:Hc.
  - rewrite (executeQuery_connect_rejects parseInt server query values config w e Hc).
    cbn. repeat split. exists []. split; [reflexivity | by left].
  - destruct (pg_end (nextClient parseInt server config w)) as [e|] eqn:He.
    + rewrite (executeQuery_end_rejects parseInt server query values config w e Hc He).
      cbn. repeat split. eexists. split; [reflexivity | by right].
    + rewrite (executeQuery_resolves parseInt server query values config w Hc He).
      cbn. repeat split. eexists. split; [reflexivity | by right].
Qed.

(** X5.  Once the connection is made, the client is ended after the query
    whether the query resolved or was rejected.  If [end()] resolves too, the
    call returns a response with exactly one of [error] and [queryResult]
    set: the rejection of the query as [error], or its result. *)
Theorem executeQuery_ends_client_and_tags_outcome
    parseInt server query values config w :
  pg_connect (nextClient parseInt server config w) = None ->
  let r := executeQuery parseInt server query values config w in
  let answer := pg_query (nextClient parseInt server config w) query values in
  trace (fst r)
  = trace w ++ [PgConnect (clients w); PgQuery (clients w) query values;
                PgEnd (clients w)]
  /\ (pg_end (nextClient parseInt server config w) = None ->
      exists response,
        snd r = Returned response
        /\ (error response = None <-> queryResult response <> None)
        /\ (forall err, answer = inl err ->
                        error response = Some err /\ queryResult response = None)
        /\ (forall result, answer = inr result ->
                           error response = None
                           /\ queryResult response = Some result))
  /\ (forall e, pg_end (nextClient parseInt server config w) = Some e ->
                snd r = Thrown e).
Proof.
  intros Hc. cbn zeta.
  destruct (pg_end (nextClient parseInt server config w)) as [e|] eqn:He.
  - rewrite (executeQuery_end_rejects parseInt server query values config w e Hc He).
    cbn. split; [reflexivity|]. split; [done|]. by intros ? [= <-].
  - rewrite (executeQuery_resolves parseInt server query values config w Hc He).
    cbn [fst snd addEffects setClients trace]. split; [reflexivity|].
    split; [|done]. intros _. eexists. split; [reflexivity|].
    destruct (pg_query _ _ _) as [err|result]; cbn; repeat split; try done.
    all: try by intros ? [= <-].
    all: congruence.
Qed.

Lemma executeQuery_ends_client_witness :
  let r := executeQuery Sample.parseInt Sample.failingServer
                        (countQuery Sample.config) [] Sample.config
                        Sample.freshWorld in
  trace (fst r)
  = [PgConnect 0%nat; PgQuery 0%nat (countQuery Sample.config) []; PgEnd 0%nat]
  /\ snd r = Returned {| error := Some (DriverErr "query failed");
                         queryResult := None |}.
Proof.
  pose proof (executeQuery_ends_client_and_tags_outcome
                Sample.parseInt Sample.failingServer (countQuery Sample.config) []
                Sample.config Sample.freshWorld ltac:(reflexivity)) as [Ht _].
  split; [exact Ht | reflexivity].
Defined.

(** ** [teardownPlugin] *)

(** X6.  [teardownPlugin] never throws and writes one thing: the durable
    offset, which is ten times the counter (zero when the counter was never
    set) clamped to [global.totalRows].  The value stored never exceeds the
    ceiling; every other key of the storage, the snapshot among them, and the
    rest of the world stay as they were. *)
Theorem teardownPlugin_persists_clamped_offset w :
  let r := teardownPlugin w in
  snd r = Returned tt
  /\ storage (fst r) !! REDIS_OFFSET_KEY
     = Some (Z.min (counterOf w * EVENTS_PER_BATCH) (totalRows (global w)))
  /\ (forall key, key <> REDIS_OFFSET_KEY ->
                  storage (fst r) !! key = storage w !! key)
  /\ cache (fst r) = cache w
  /\ global (fst r) = global w
  /\ clients (fst r) = clients w
  /\ scheduled (fst r) = scheduled w
  /\ trace (fst r) = trace w.
Proof.
  cbn zeta. unfold teardownPlugin, counterOf. unfold_js. unfold_world.
  cbn [fst snd storage cache global clients scheduled trace].
  repeat split.
  - rewrite lookup_insert_eq. f_equal.
    destruct (Z.gtb_spec (default 0 (cache w !! REDIS_OFFSET_KEY) * EVENTS_PER_BATCH)
                         (totalRows (global w))); lia.
  - intros key Hkey. by rewrite lookup_insert_ne.
Qed.

(** ** [setupPlugin]: the fatal start-up errors *)

(** X7.  When a required option is missing from the configuration,
    [setupPlugin] throws the error that names the first missing one, in the
    order clusterHost, clusterPort, dbName, dbUsername, dbPassword, and does
    nothing else: no connection, no write, no job scheduled. *)
Theorem setupPlugin_missing_option parseInt server config w option :
  firstMissing config = Some option ->
  setupPlugin parseInt server config w
  = (w, Thrown (ErrorMsg ("Required config option " +:+ option +:+ " is missing!"))).
Proof.
  unfold firstMissing, setupPlugin, configHas. cbn [requiredConfigOptions find forEach].
  cbn -[executeQuery countOf endsWith String.append bool_decide].
  destruct (clusterHost config), (clusterPort config), (dbName config),
    (dbUsername config), (dbPassword config);
    cbn -[executeQuery countOf endsWith String.append];
    intros [= <-]; reflexivity.
Qed.

Lemma setupPlugin_missing_option_witness :
  let config := {| clusterHost := Some "example.redshift.amazonaws.com";
                   clusterPort := Some "5439"; dbName := None;
                   dbUsername := Some "posthog"; dbPassword := None;
                   tableName := "events"; orderByColumn := "id";
                   transformationName := "default";
                   importMechanism := "Import continuously" |} in
  setupPlugin Sample.parseInt Sample.unreachableServer config Sample.freshWorld
  = (Sample.freshWorld,
     Thrown (ErrorMsg "Required config option dbName is missing!")).
Proof.
  exact (setupPlugin_missing_option
           Sample.parseInt Sample.unreachableServer
           {| clusterHost := Some "example.redshift.amazonaws.com";
              clusterPort := Some "5439"; dbName := None;
              dbUsername := Some "posthog"; dbPassword := None;
              tableName := "events"; orderByColumn := "id";
              transformationName := "default";
              importMechanism := "Import continuously" |}
           Sample.freshWorld "dbName" ltac:(reflexivity)).
Defined.

(** X8.  With the five required options present but a cluster host that does
    not end in [redshift.amazonaws.com], [setupPlugin] throws the host error
    before any connection is attempted and leaves the world as it was. *)
Theorem setupPlugin_rejects_foreign_host parseInt server config w clusterHost_ :
  firstMissing config = None ->
  clusterHost config = Some clusterHost_ ->
  endsWith clusterHost_ "redshift.amazonaws.com" = false ->
  setupPlugin parseInt server config w
  = (w, Thrown (ErrorMsg "Cluster host must be a valid AWS Redshift host")).
Proof.
  unfold firstMissing, setupPlugin, configHas. cbn [requiredConfigOptions find forEach].
  cbn -[executeQuery countOf endsWith String.append bool_decide].
  intros Hm Hh He. rewrite Hh in *.
  destruct (clusterPort config), (dbName config),
    (dbUsername config), (dbPassword config);
    cbn -[executeQuery countOf endsWith String.append] in Hm |- *;
    try discriminate Hm.
  unfold bind at 1. by rewrite He.
Qed.

Lemma setupPlugin_rejects_foreign_host_witness :
  let config := {| clusterHost := Some "db.example.com";
                   clusterPort := Some "5439"; dbName := Some "dev";
                   dbUsername := Some "posthog"; dbPassword := Some "secret";
                   tableName := "events"; orderByColumn := "id";
                   transformationName := "default";
                   importMechanism := "Import continuously" |} in
  setupPlugin Sample.parseInt (Sample.tableServer []) config Sample.freshWorld
  = (Sample.freshWorld,
     Thrown (ErrorMsg "Cluster host must be a valid AWS Redshift host")).
Proof.
  exact (setupPlugin_rejects_foreign_host
           Sample.parseInt (Sample.tableServer [])
           {| clusterHost := Some "db.example.com";
              clusterPort := Some "5439"; dbName := Some "dev";
              dbUsername := Some "posthog"; dbPassword := Some "secret";
              tableName := "events"; orderByColumn := "id";
              transformationName := "default";
              importMechanism := "Import continuously" |}
           Sample.freshWorld "db.example.com"
           ltac:(reflexivity) ltac:(reflexivity) ltac:(reflexivity)).
Defined.

(** X9.  On every path through [setupPlugin]: the only key of the storage
    it may write is the snapshot, and in continuous mode it writes nothing;
    the first job is scheduled, ten seconds ahead, exactly when the start
    returns; a start that does not return schedules nothing and leaves the
    counter alone. *)
Theorem setupPlugin_frame parseInt server config w :
  let r := setupPlugin parseInt server config w in
  (forall key, key <> "total_rows_snapshot" ->
               storage (fst r) !! key = storage w !! key)
  /\ (historical config = false -> storage (fst r) = storage w)
  /\ (snd r = Returned tt ->
      scheduled (fst r) = scheduled w ++ [(continuation, RunIn 10)])
  /\ (snd r <> Returned tt ->
      scheduled (fst r) = scheduled w /\ cache (fst r) = cache w).
Proof.
  cbn zeta. unfold setupPlugin, executeQuery, countOf, configHas, historical.
  cbn [requiredConfigOptions forEach].
  cbn -[endsWith String.append bool_decide Number getProp].
  unfold_js.
  cbn [global setCache fst snd clients addEffect setClients cache].
  split_run.
  all: cbn [fst snd]; project_world.
  all: repeat split; intros; try done; try congruence.
  all: rewrite ?lookup_insert_ne by done; try reflexivity.
Qed.

(** X10.  When the server rejects the count query, [setupPlugin] throws
    'Unable to connect to Redshift!' after ending the client; the ceiling,
    the initial offset, the counter and the storage are not written and no
    job is scheduled. *)
Theorem setupPlugin_count_query_rejected parseInt server config w err :
  validConfig config = true ->
  pg_connect (nextClient parseInt server config w) = None ->
  pg_query (nextClient parseInt server config w) (countQuery config) [] = inl err ->
  pg_end (nextClient parseInt server config w) = None ->
  setupPlugin parseInt server config w
  = ({| cache := cache w; storage := storage w; global := global w;
        clients := S (clients w); scheduled := scheduled w;
        trace := trace w ++ [PgConnect (clients w);
                             PgQuery (clients w) (countQuery config) [];
                             PgEnd (clients w)] |},
     Thrown (ErrorMsg "Unable to connect to Redshift!")).
Proof.
  intros Hv Hc Hq He. unfold setupPlugin.
  unfold validConfig in Hv. apply andb_prop in Hv as [Hreq Hhost].
  unfold configHas in Hreq. cbn in Hreq.
  destruct (clusterHost config) as [h|] eqn:E1; [|done].
  destruct (clusterPort config) as [p|] eqn:E2; [|done].
  destruct (dbName config) as [d|] eqn:E3; [|done].
  destruct (dbUsername config) as [u|] eqn:E4; [|done].
  destruct (dbPassword config) as [pw|] eqn:E5; [|done].
  unfold bind at 1. unfold configHas. cbn [forEach requiredConfigOptions].
  rewrite E1, E2, E3, E4, E5. cbn -[endsWith executeQuery countOf].
  unfold bind at 1. rewrite Hhost. cbn [negb]. unfold ret at 1.
  unfold bind at 1.
  rewrite executeQuery_resolves by assumption.
  rewrite Hq. cbn [responseOf queryFailed error queryResult].
  unfold_js. by unfold_world.
Qed.

Lemma setupPlugin_count_query_rejected_witness :
  setupPlugin Sample.parseInt Sample.failingServer Sample.config Sample.freshWorld
  = ({| cache := ∅; storage := ∅;
        global := {| initialOffset := 0; totalRows := 0 |};
        clients := 1; scheduled := [];
        trace := [PgConnect 0%nat; PgQuery 0%nat (countQuery Sample.config) [];
                  PgEnd 0%nat] |},
     Thrown (ErrorMsg "Unable to connect to Redshift!")).
Proof.
  exact (setupPlugin_count_query_rejected
           Sample.parseInt Sample.failingServer Sample.config Sample.freshWorld
           (DriverErr "query failed")
           ltac:(reflexivity) ltac:(reflexivity) ltac:(reflexivity)
           ltac:(reflexivity)).
Defined.

(** ** [setupPlugin]: a start that succeeds *)

(** X11.  A start that succeeds sends one query, the count; it loads the
    durable offset [X] (zero when none is stored) as [global.initialOffset],
    overwrites the counter with [floor(X / 10)] whatever the cache held
    before, and leaves every other key of the cache alone. *)
Theorem setupPlugin_seeds_counter_from_storage
    parseInt server config w row others count :
  validConfig config = true ->
  pg_connect (nextClient parseInt server config w) = None ->
  pg_query (nextClient parseInt server config w) (countQuery config) []
  = inr {| rows := row :: others |} ->
  pg_end (nextClient parseInt server config w) = None ->
  Number (getProp row "count") = Some count ->
  let r := setupPlugin parseInt server config w in
  let X := default 0 (storage w !! REDIS_OFFSET_KEY) in
  snd r = Returned tt
  /\ initialOffset (global (fst r)) = X
  /\ cache (fst r) !! REDIS_OFFSET_KEY = Some (X / EVENTS_PER_BATCH)
  /\ (forall key, key <> REDIS_OFFSET_KEY -> cache (fst r) !! key = cache w !! key)
  /\ queriesOf (trace (fst r)) = queriesOf (trace w) ++ [(countQuery config, [])].
Proof.
  intros Hv Hc Hq He Hn. cbn zeta.
  rewrite (setupPlugin_starts parseInt server config w row others count Hv Hc Hq He Hn).
  cbn [fst snd global initialOffset cache trace]. repeat split.
  - apply lookup_insert_eq.
  - intros key Hkey. by rewrite lookup_insert_ne.
  - by rewrite queriesOf_app.
Qed.

Lemma setupPlugin_seeds_counter_witness :
  let w := setStorage (insert REDIS_OFFSET_KEY 47)
                      (setCache (insert REDIS_OFFSET_KEY 900) Sample.freshWorld) in
  let r := setupPlugin Sample.parseInt (Sample.tableServer (Sample.numberedTable 60))
                       Sample.config w in
  snd r = Returned tt
  /\ initialOffset (global (fst r)) = 47
  /\ cache (fst r) !! REDIS_OFFSET_KEY = Some 4.
Proof.
  pose proof (setupPlugin_seeds_counter_from_storage
                Sample.parseInt (Sample.tableServer (Sample.numberedTable 60))
                Sample.config
                (setStorage (insert REDIS_OFFSET_KEY 47)
                            (setCache (insert REDIS_OFFSET_KEY 900) Sample.freshWorld))
                [("count", JStr "60")] [] 60
                ltac:(reflexivity) ltac:(reflexivity) ltac:(reflexivity)
                ltac:(reflexivity) ltac:(reflexivity)) as (H1 & H2 & H3 & _).
  split; [exact H1 | split; [exact H2 | exact H3]].
Defined.

(** X12.  Historical mode, no snapshot in storage yet: a start that succeeds
    records the live count as the snapshot and takes it as the ceiling. *)
Theorem setupPlugin_records_first_snapshot
    parseInt server config w row others count :
  validConfig config = true ->
  importMechanism config = "Only import historical data" ->
  storage w !! "total_rows_snapshot" = None ->
  pg_connect (nextClient parseInt server config w) = None ->
  pg_query (nextClient parseInt server config w) (countQuery config) []
  = inr {| rows := row :: others |} ->
  pg_end (nextClient parseInt server config w) = None ->
  Number (getProp row "count") = Some count ->
  let r := setupPlugin parseInt server config w in
  snd r = Returned tt
  /\ totalRows (global (fst r)) = count
  /\ storage (fst r) = <["total_rows_snapshot" := count]> (storage w).
Proof.
  intros Hv Hm Hs Hc Hq He Hn. cbn zeta.
  rewrite (setupPlugin_starts parseInt server config w row others count Hv Hc Hq He Hn).
  cbn [fst snd global totalRows storage].
  unfold ceilingAfterSetup, storageAfterSetup, historical.
  rewrite Hm, Hs. cbn [truthyNum negb andb]. rewrite andb_false_r.
  by rewrite String.eqb_refl.
Qed.

Lemma setupPlugin_records_first_snapshot_witness :
  let r := setupPlugin Sample.parseInt (Sample.tableServer (Sample.numberedTable 25))
                       Sample.historicalConfig Sample.freshWorld in
  snd r = Returned tt
  /\ totalRows (global (fst r)) = 25
  /\ storage (fst r) = <["total_rows_snapshot" := 25]> ∅.
Proof.
  exact (setupPlugin_records_first_snapshot
           Sample.parseInt (Sample.tableServer (Sample.numberedTable 25))
           Sample.historicalConfig Sample.freshWorld
           [("count", JStr "25")] [] 25
           ltac:(reflexivity) ltac:(reflexivity) ltac:(reflexivity)
           ltac:(reflexivity) ltac:(reflexivity) ltac:(reflexivity)
           ltac:(reflexivity)).
Defined.

(** X13.  Historical mode with a non-zero snapshot in storage: a start that
    succeeds takes the snapshot as the ceiling, whatever the table counts
    now, and leaves the storage as it was. *)
Theorem setupPlugin_historical_keeps_snapshot
    parseInt server config w row others count snapshot :
  validConfig config = true ->
  importMechanism config = "Only import historical data" ->
  storage w !! "total_rows_snapshot" = Some snapshot ->
  snapshot <> 0 ->
  pg_connect (nextClient parseInt server config w) = None ->
  pg_query (nextClient parseInt server config w) (countQuery config) []
  = inr {| rows := row :: others |} ->
  pg_end (nextClient parseInt server config w) = None ->
  Number (getProp row "count") = Some count ->
  let r := setupPlugin parseInt server config w in
  snd r = Returned tt
  /\ totalRows (global (fst r)) = snapshot
  /\ storage (fst r) = storage w.
Proof.
  intros Hv Hm Hs Hnz Hc Hq He Hn. cbn zeta.
  rewrite (setupPlugin_starts parseInt server config w row others count Hv Hc Hq He Hn).
  cbn [fst snd global totalRows storage].
  unfold ceilingAfterSetup, storageAfterSetup, historical.
  rewrite Hm, Hs, String.eqb_refl. cbn [truthyNum default andb].
  by destruct (Z.eqb_spec snapshot 0).
Qed.

Lemma setupPlugin_historical_keeps_snapshot_witness :
  let w := setStorage (insert "total_rows_snapshot" 25) Sample.freshWorld in
  let r := setupPlugin Sample.parseInt (Sample.tableServer (Sample.numberedTable 60))
                       Sample.historicalConfig w in
  snd r = Returned tt
  /\ totalRows (global (fst r)) = 25
  /\ storage (fst r) = storage w.
Proof.
  exact (setupPlugin_historical_keeps_snapshot
           Sample.parseInt (Sample.tableServer (Sample.numberedTable 60))
           Sample.historicalConfig
           (setStorage (insert "total_rows_snapshot" 25) Sample.freshWorld)
           [("count", JStr "60")] [] 60 25
           ltac:(reflexivity) ltac:(reflexivity) ltac:(reflexivity)
           ltac:(discriminate) ltac:(reflexivity) ltac:(reflexivity)
           ltac:(reflexivity) ltac:(reflexivity)).
Defined.

(** X14.  Continuous mode: a start that succeeds takes the live count as the
    ceiling whatever snapshot the storage holds, and writes nothing to the
    storage. *)
Theorem setupPlugin_continuous_follows_live_count
    parseInt server config w row others count :
  validConfig config = true ->
  importMechanism config <> "Only import historical data" ->
  pg_connect (nextClient parseInt server config w) = None ->
  pg_query (nextClient parseInt server config w) (countQuery config) []
  = inr {| rows := row :: others |} ->
  pg_end (nextClient parseInt server config w) = None ->
  Number (getProp row "count") = Some count ->
  let r := setupPlugin parseInt server config w in
  snd r = Returned tt
  /\ totalRows (global (fst r)) = count
  /\ storage (fst r) = storage w.
Proof.
  intros Hv Hm Hc Hq He Hn. cbn zeta.
  rewrite (setupPlugin_starts parseInt server config w row others count Hv Hc Hq He Hn).
  cbn [fst snd global totalRows storage].
  unfold ceilingAfterSetup, storageAfterSetup, historical.
  apply String.eqb_neq in Hm. by rewrite Hm.
Qed.

Lemma setupPlugin_continuous_witness :
  let w := setStorage (insert "total_rows_snapshot" 25) Sample.freshWorld in
  let r := setupPlugin Sample.parseInt (Sample.tableServer (Sample.numberedTable 60))
                       Sample.config w in
  snd r = Returned tt
  /\ totalRows (global (fst r)) = 60
  /\ storage (fst r) = storage w.
Proof.
  exact (setupPlugin_continuous_follows_live_count
           Sample.parseInt (Sample.tableServer (Sample.numberedTable 60))
           Sample.config
           (setStorage (insert "total_rows_snapshot" 25) Sample.freshWorld)
           [("count", JStr "60")] [] 60
           ltac:(reflexivity) ltac:(discriminate) ltac:(reflexivity)
           ltac:(reflexivity) ltac:(reflexivity) ltac:(reflexivity)).
Defined.

(** ** [importAndIngestEvents]: what every run keeps *)


Ltac unfold_job :=
  unfold importAndIngestEvents, allocateOffset, executeQuery,
    cacheAfterAllocation, retryOf, counterOf;
  unfold_js;
  cbn [global setCache fst snd clients addEffect setClients cache].

(** X15.  Whatever the payload, the server and the outcome, a job run never
    writes the storage nor [global]; it constructs at most one client; and
    the only thing it does to the cache is the one increment of the counter
    that a payload without truthy offset asks for, also when the run then
    stops at the ceiling or throws. *)
Theorem job_frame
    JSON_parse parseInt server payload config attachments w :
  let r := importAndIngestEvents JSON_parse parseInt server payload config
                                 attachments w in
  storage (fst r) = storage w
  /\ global (fst r) = global w
  /\ cache (fst r) = cacheAfterAllocation payload w
  /\ (clients (fst r) = clients w \/ clients (fst r) = S (clients w)).
Proof.
  cbn zeta. unfold_job.
  destruct (truthyNum (offset payload)) eqn:Ht; cbn [andb].
  all: split_run.
  all: cbn [fst snd]; project_world.
  all: repeat split; try reflexivity; auto.
Qed.

(** X16.  A job run schedules at most one job and removes none.  The
    continuation, run at once with no offset and no retry, is scheduled only
    by a run that returns; the retry, which copies the payload with one more
    retry, is scheduled only by a run that then throws on the missing rows.
    Never both.  The retry waits [2^retries * 3] seconds up to 1022 retries,
    and [Infinity] beyond, where the product overflows. *)
Theorem job_schedules_at_most_one_job
    JSON_parse parseInt server payload config attachments w :
  let r := importAndIngestEvents JSON_parse parseInt server payload config
                                 attachments w in
  scheduled (fst r) = scheduled w
  \/ (scheduled (fst r) = scheduled w ++ [(continuation, RunNow)]
      /\ snd r = Returned tt)
  \/ (retriesPerformedSoFar payload <= 1022
      /\ scheduled (fst r)
         = scheduled w
           ++ [(retryOf payload, RunIn (2 ^ retriesPerformedSoFar payload * 3))]
      /\ snd r = Thrown (TypeErr "Cannot read properties of null (reading 'rows')"))
  \/ (1022 < retriesPerformedSoFar payload
      /\ scheduled (fst r) = scheduled w ++ [(retryOf payload, RunInInfinity)]
      /\ snd r = Thrown (TypeErr "Cannot read properties of null (reading 'rows')")).
Proof.
  cbn zeta. unfold_job. unfold MAX_FINITE_RETRY_EXPONENT.
  destruct (truthyNum (offset payload)) eqn:Ht; cbn [andb].
  all: split_run.
  all: cbn [fst snd]; project_world.
  all: first [ by left
             | right; left; by split
             | right; right; left; split; [by apply Z.leb_le | by split]
             | right; right; right; split; [by apply Z.leb_gt | by split] ].
Qed.

(** X17.  Delivery is all or nothing for a batch: a run that does not return
    (a rejected connection or query, a row that does not transform, an
    unregistered transformation) has captured no event. *)
Theorem job_captures_only_when_it_returns
    JSON_parse parseInt server payload config attachments w :
  let r := importAndIngestEvents JSON_parse parseInt server payload config
                                 attachments w in
  snd r <> Returned tt ->
  capturedOf (trace (fst r)) = capturedOf (trace w).
Proof.
  cbn zeta. unfold_job.
  destruct (truthyNum (offset payload)) eqn:Ht; cbn [andb].
  all: split_run.
  all: cbn [fst snd]; project_world.
  all: intros Hne; try done.
  all: rewrite ?capturedOf_app; cbn [capturedOf app]; rewrite ?app_nil_r; try reflexivity.
Qed.

Lemma job_captures_only_when_it_returns_witness :
  let w := Sample.startedWorld Sample.brokenTable in
  let r := importAndIngestEvents Sample.JSON_parse Sample.parseInt
                                 (Sample.tableServer Sample.brokenTable)
                                 continuation Sample.config Sample.noAttachments w in
  snd r = Thrown SyntaxErr
  /\ capturedOf (trace (fst r)) = capturedOf (trace w).
Proof.
  split; [reflexivity|].
  apply (job_captures_only_when_it_returns
           Sample.JSON_parse Sample.parseInt (Sample.tableServer Sample.brokenTable)
           continuation Sample.config Sample.noAttachments
           (Sample.startedWorld Sample.brokenTable)).
  vm_compute. discriminate.
Defined.

(** ** [importAndIngestEvents]: the paths of a run *)

(** X18.  A run whose offset is beyond the ceiling returns without opening a
    connection, capturing an event or scheduling a job: the chain of jobs
    ends there.  A payload without truthy offset has still used up one tick
    of the counter. *)
Theorem job_beyond_ceiling_stops
    JSON_parse parseInt server payload config attachments w :
  truthyNum (offset payload) && (15 <=? retriesPerformedSoFar payload) = false ->
  jobOffset payload w > totalRows (global w) ->
  let r := importAndIngestEvents JSON_parse parseInt server payload config
                                 attachments w in
  snd r = Returned tt
  /\ scheduled (fst r) = scheduled w
  /\ clients (fst r) = clients w
  /\ queriesOf (trace (fst r)) = queriesOf (trace w)
  /\ capturedOf (trace (fst r)) = capturedOf (trace w)
  /\ cache (fst r) = cacheAfterAllocation payload w.
Proof.
  intros Hg Hd. cbn zeta.
  rewrite (job_done JSON_parse parseInt server payload config attachments w Hg Hd).
  cbn [fst snd scheduled clients trace cache].
  rewrite queriesOf_app, capturedOf_app. cbn. by rewrite !app_nil_r.
Qed.

Lemma job_beyond_ceiling_witness :
  let w := setCache (insert REDIS_OFFSET_KEY 3)
                    (Sample.startedWorld (Sample.numberedTable 25)) in
  let r := importAndIngestEvents Sample.JSON_parse Sample.parseInt
                                 Sample.unreachableServer continuation
                                 Sample.config Sample.noAttachments w in
  snd r = Returned tt
  /\ scheduled (fst r) = scheduled w
  /\ clients (fst r) = clients w
  /\ queriesOf (trace (fst r)) = queriesOf (trace w)
  /\ capturedOf (trace (fst r)) = capturedOf (trace w)
  /\ cache (fst r) = cacheAfterAllocation continuation w.
Proof.
  exact (job_beyond_ceiling_stops
           Sample.JSON_parse Sample.parseInt Sample.unreachableServer continuation
           Sample.config Sample.noAttachments
           (setCache (insert REDIS_OFFSET_KEY 3)
                     (Sample.startedWorld (Sample.numberedTable 25)))
           ltac:(reflexivity) ltac:(vm_compute; reflexivity)).
Defined.



(** X20.  A run whose rows do not all transform throws the error of the
    first row that fails, after the client has been ended; it captures
    nothing, not even the rows before the failing one, and schedules neither
    a retry nor the continuation: the chain of jobs ends there. *)
Theorem job_transformation_failure_ends_the_chain
    JSON_parse parseInt server payload config attachments w result e :
  truthyNum (offset payload) && (15 <=? retriesPerformedSoFar payload) = false ->
  jobOffset payload w <= totalRows (global w) ->
  pg_connect (nextClient parseInt server config w) = None ->
  pg_query (nextClient parseInt server config w) (batchQuery config)
           [jobOffset payload w] = inr result ->
  pg_end (nextClient parseInt server config w) = None ->
  transformRows JSON_parse config attachments (rows result) = Thrown e ->
  importAndIngestEvents JSON_parse parseInt server payload config attachments w
  = ({| cache := cacheAfterAllocation payload w; storage := storage w;
        global := global w; clients := S (clients w); scheduled := scheduled w;
        trace := trace w
                 ++ [Console LogLevel (MsgOffset (jobOffset payload w)
                                                 (totalRows (global w)));
                     PgConnect (clients w);
                     PgQuery (clients w) (batchQuery config) [jobOffset payload w];
                     PgEnd (clients w)] |},
     Thrown e).
Proof.
  unfold nextClient, jobOffset. intros Hg Hd Hc Hq He Ht.
  unfold_job. rewrite Hg.
  destruct (truthyNum (offset payload)) eqn:Hoff.
  all: unfold counterOf in *.
  all: cbn [global setCache fst snd clients addEffect setClients cache].
  all: rewrite ?counter_tick.
  all: split_run.
  all: cbn [global setCache fst snd clients addEffect setClients cache
            queryFailed error queryResult] in *.
  all: try discriminate; try congruence; try lia.
  all: f_equal; [|congruence].
  all: apply world_eq; project_world; rewrite <- ?app_assoc; reflexivity.
Qed.

Lemma job_transformation_failure_witness :
  let w := Sample.startedWorld (Sample.numberedTable 25) in
  let r := importAndIngestEvents Sample.JSON_parse Sample.parseInt
                                 (Sample.tableServer (Sample.numberedTable 25))
                                 continuation Sample.unregisteredConfig
                                 Sample.noAttachments w in
  snd r = Thrown (TypeErr "Cannot read properties of undefined (reading 'transform')")
  /\ scheduled (fst r) = scheduled w
  /\ capturedOf (trace (fst r)) = [].
Proof.
  cbn zeta.
  rewrite (job_transformation_failure_ends_the_chain
             Sample.JSON_parse Sample.parseInt
             (Sample.tableServer (Sample.numberedTable 25))
             continuation Sample.unregisteredConfig Sample.noAttachments
             (Sample.startedWorld (Sample.numberedTable 25))
             {| rows := firstn 10 (Sample.numberedTable 25) |}
             (TypeErr "Cannot read properties of undefined (reading 'transform')")
             ltac:(reflexivity) ltac:(vm_compute; discriminate)
             ltac:(reflexivity) ltac:(reflexivity) ltac:(reflexivity)
             ltac:(reflexivity)).
  repeat split.
Defined.

(** X21.  A run that cannot connect throws the driver's error as it is:
    the failure branch of the job is not reached, so no retry is scheduled,
    nor anything else, and nothing is queried or captured. *)
Theorem job_connection_failure_is_not_retried
    JSON_parse parseInt server payload config attachments w e :
  truthyNum (offset payload) && (15 <=? retriesPerformedSoFar payload) = false ->
  jobOffset payload w <= totalRows (global w) ->
  pg_connect (nextClient parseInt server config w) = Some e ->
  importAndIngestEvents JSON_parse parseInt server payload config attachments w
  = ({| cache := cacheAfterAllocation payload w; storage := storage w;
        global := global w; clients := S (clients w); scheduled := scheduled w;
        trace := trace w
                 ++ [Console LogLevel (MsgOffset (jobOffset payload w)
                                                 (totalRows (global w)));
                     PgConnect (clients w)] |},
     Thrown e).
Proof.
  unfold nextClient, jobOffset. intros Hg Hd Hc.
  unfold_job. rewrite Hg.
  destruct (truthyNum (offset payload)) eqn:Hoff.
  all: unfold counterOf in *.
  all: cbn [global setCache fst snd clients addEffect setClients cache].
  all: rewrite ?counter_tick.
  all: split_run.
  all: cbn [global setCache fst snd clients addEffect setClients cache
            queryFailed error queryResult] in *.
  all: try discriminate; try congruence; try lia.
  all: f_equal; [|congruence].
  all: apply world_eq; project_world; rewrite <- ?app_assoc; reflexivity.
Qed.

Lemma job_connection_failure_witness :
  let w := Sample.startedWorld (Sample.numberedTable 25) in
  importAndIngestEvents Sample.JSON_parse Sample.parseInt Sample.unreachableServer
                        continuation Sample.config Sample.noAttachments w
  = ({| cache := <[REDIS_OFFSET_KEY := 1]> (cache w); storage := storage w;
        global := global w; clients := 2; scheduled := scheduled w;
        trace := trace w ++ [Console LogLevel (MsgOffset 0 25); PgConnect 1%nat] |},
     Thrown (DriverErr "connect ECONNREFUSED")).
Proof.
  cbn zeta.
  rewrite (job_connection_failure_is_not_retried
             Sample.JSON_parse Sample.parseInt Sample.unreachableServer
             continuation Sample.config Sample.noAttachments
             (Sample.startedWorld (Sample.numberedTable 25))
             (DriverErr "connect ECONNREFUSED")
             ltac:(reflexivity) ltac:(vm_compute; discriminate) ltac:(reflexivity)).
  vm_compute. reflexivity.
Defined.



(** X23.  An empty batch needs no transformation: when the query returns no
    row, the run returns and schedules the continuation without looking the
    transformation up, so an unregistered transformation name goes unnoticed
    and nothing is captured. *)
Theorem job_empty_batch_continues
    JSON_parse parseInt server payload config attachments w :
  truthyNum (offset payload) && (15 <=? retriesPerformedSoFar payload) = false ->
  jobOffset payload w <= totalRows (global w) ->
  pg_connect (nextClient parseInt server config w) = None ->
  pg_query (nextClient parseInt server config w) (batchQuery config)
           [jobOffset payload w] = inr {| rows := [] |} ->
  pg_end (nextClient parseInt server config w) = None ->
  let r := importAndIngestEvents JSON_parse parseInt server payload config
                                 attachments w in
  snd r = Returned tt
  /\ capturedOf (trace (fst r)) = capturedOf (trace w)
  /\ scheduled (fst r) = scheduled w ++ [(continuation, RunNow)].
Proof.
  intros Hg Hd Hc Hq He. cbn zeta.
  rewrite (job_success JSON_parse parseInt server payload config attachments w
                       {| rows := [] |} [] Hg Hd Hc Hq He eq_refl).
  cbn [fst snd scheduled trace deliveryEffects flat_map app].
  rewrite capturedOf_app. cbn. by rewrite app_nil_r.
Qed.

Lemma job_empty_batch_witness :
  let w := Sample.startedWorld (Sample.numberedTable 20) in
  let r := importAndIngestEvents Sample.JSON_parse Sample.parseInt
                                 (Sample.tableServer (Sample.numberedTable 20))
                                 {| offset := Some 20; retriesPerformedSoFar := 0 |}
                                 Sample.unregisteredConfig Sample.noAttachments w in
  snd r = Returned tt
  /\ capturedOf (trace (fst r)) = capturedOf (trace w)
  /\ scheduled (fst r) = scheduled w ++ [(continuation, RunNow)].
Proof.
  exact (job_empty_batch_continues
           Sample.JSON_parse Sample.parseInt
           (Sample.tableServer (Sample.numberedTable 20))
           {| offset := Some 20; retriesPerformedSoFar := 0 |}
           Sample.unregisteredConfig Sample.noAttachments
           (Sample.startedWorld (Sample.numberedTable 20))
           ltac:(reflexivity) ltac:(vm_compute; discriminate)
           ltac:(reflexivity) ltac:(reflexivity) ltac:(reflexivity)).
Defined.

(** ** Objects *)

Lemma getProp_setProp_eq o k v : getProp (setProp o k v) k = v.
Proof.
  induction o as [|[k' v'] o IH]; cbn.
  - by rewrite String.eqb_refl.
  - destruct (String.eqb k' k) eqn:E; cbn; by rewrite E.
Qed.

Lemma getProp_setProp_ne o k v k' :
  k <> k' -> getProp (setProp o k v) k' = getProp o k'.
Proof.
  intros Hne. pose proof (proj2 (String.eqb_neq k k') Hne) as Hb.
  induction o as [|[k0 v0] o IH]; cbn.
  - by rewrite Hb.
  - destruct (String.eqb k0 k) eqn:E; cbn.
    + apply String.eqb_eq in E as ->. by rewrite Hb.
    + by rewrite IH.
Qed.

Lemma hasOwn_setProp o k v k' :
  hasOwn (setProp o k v) k' = String.eqb k k' || hasOwn o k'.
Proof.
  unfold hasOwn. induction o as [|[k0 v0] o IH]; cbn.
  - reflexivity.
  - destruct (String.eqb k0 k) eqn:E; cbn.
    + apply String.eqb_eq in E as ->. by destruct (String.eqb k k').
    + rewrite IH. destruct (String.eqb k0 k'), (String.eqb k k'); reflexivity.
Qed.

Lemma getProp_app o1 o2 k :
  getProp (o1 ++ o2) k = if hasOwn o1 k then getProp o1 k else getProp o2 k.
Proof.
  induction o1 as [|[k0 v0] o1 IH]; cbn; [reflexivity|].
  destruct (String.eqb k0 k); cbn; [reflexivity | exact IH].
Qed.

Lemma hasOwn_rev o k : hasOwn (rev o) k = hasOwn o k.
Proof.
  unfold hasOwn. induction o as [|kv o IH]; cbn; [reflexivity|].
  rewrite existsb_app, IH. cbn. rewrite orb_false_r. apply orb_comm.
Qed.

(** In [{ ...o, ...src }] a property of [src] wins, the last one of that
    name; the others are those of [o]. *)
Lemma getProp_assignProps src o k :
  getProp (assignProps o src) k
  = if hasOwn src k then getProp (rev src) k else getProp o k.
Proof.
  revert o. induction src as [|[k1 v1] src IH]; intros o; [reflexivity|].
  change (assignProps o ((k1, v1) :: src)) with (assignProps (setProp o k1 v1) src).
  rewrite IH. cbn [hasOwn existsb fst rev]. fold (hasOwn src k).
  rewrite getProp_app, hasOwn_rev.
  destruct (hasOwn src k); [by rewrite orb_true_r|]. rewrite orb_false_r. cbn.
  destruct (String.eqb k1 k) eqn:E.
  - apply String.eqb_eq in E as ->. apply getProp_setProp_eq.
  - apply getProp_setProp_ne. by apply String.eqb_neq.
Qed.

(** ** The default transformation *)

(** X24.  Whenever the default transformation returns, the event name is
    the row's [event] column as it is, and the properties carry
    [source: 'redshift_import'], also when the row's JSON properties have a
    [source] of their own. *)
Theorem default_transformation_marks_source JSON_parse row e :
  transformDefault JSON_parse row = Returned e ->
  event e = getProp row "event"
  /\ exists props,
       properties e = JObj props
       /\ getProp props "source" = JStr "redshift_import".
Proof.
  unfold transformDefault. intros H.
  destruct (JSON_parse (getProp row "properties")) as [parsed|]; [|discriminate].
  destruct (spread parsed) as [entries| |]; try discriminate.
  injection H as <-. cbn [event properties]. split; [reflexivity|].
  eexists. split; [reflexivity|]. apply getProp_setProp_eq.
Qed.

Lemma default_transformation_marks_source_witness :
  exists e,
    transformDefault Sample.JSON_parse Sample.overridingRow = Returned e
    /\ event e = JStr "signup"
    /\ exists props,
         properties e = JObj props
         /\ getProp props "source" = JStr "redshift_import".
Proof.
  eexists. split; [reflexivity|].
  exact (default_transformation_marks_source
           Sample.JSON_parse Sample.overridingRow _ eq_refl).
Defined.

(** X25.  When the [properties] column parses to an object, the default
    transformation returns, and every property other than [source] is read
    from the parsed object first (the last entry of that name) and from the
    row's [timestamp] and [distinct_id] columns otherwise: JSON properties
    named [timestamp] or [distinct_id] replace the columns. *)
Theorem default_transformation_json_overrides_columns JSON_parse row entries :
  JSON_parse (getProp row "properties") = Some (JObj entries) ->
  exists props,
    transformDefault JSON_parse row
    = Returned {| event := getProp row "event"; properties := JObj props |}
    /\ forall k,
         k <> "source" ->
         getProp props k
         = if hasOwn entries k then getProp (rev entries) k
           else getProp [("timestamp", getProp row "timestamp");
                         ("distinct_id", getProp row "distinct_id")] k.
Proof.
  intros Hp. unfold transformDefault. rewrite Hp. cbn [spread].
  eexists. split; [reflexivity|].
  intros k Hk. rewrite getProp_setProp_ne by congruence.
  rewrite getProp_assignProps. reflexivity.
Qed.

Lemma default_transformation_json_overrides_witness :
  Sample.JSON_parse (getProp Sample.overridingRow "properties")
  = Some (JObj [("timestamp", JStr "late"); ("source", JStr "elsewhere")])
  /\ exists props,
       transformDefault Sample.JSON_parse Sample.overridingRow
       = Returned {| event := getProp Sample.overridingRow "event";
                     properties := JObj props |}
       /\ forall k,
            k <> "source" ->
            getProp props k
            = if hasOwn [("timestamp", JStr "late"); ("source", JStr "elsewhere")] k
              then getProp (rev [("timestamp", JStr "late");
                                 ("source", JStr "elsewhere")]) k
              else getProp [("timestamp", getProp Sample.overridingRow "timestamp");
                            ("distinct_id",
                             getProp Sample.overridingRow "distinct_id")] k.
Proof.
  split; [reflexivity|].
  exact (default_transformation_json_overrides_columns
           Sample.JSON_parse Sample.overridingRow
           [("timestamp", JStr "late"); ("source", JStr "elsewhere")]
           ltac:(reflexivity)).
Defined.

(** The same row, evaluated: the JSON [timestamp] replaces the column, the
    JSON [source] is replaced by the marker. *)
Example default_transformation_on_overriding_row :
  transformDefault Sample.JSON_parse Sample.overridingRow
  = Returned {| event := JStr "signup";
                properties := JObj [("timestamp", JStr "late");
                                    ("distinct_id", JStr "u1");
                                    ("source", JStr "redshift_import")] |}.
Proof. reflexivity. Qed.

(** ** The column-map transformation *)

Lemma jsonMapStep_unmapped entries acc col :
  hasOwn entries (fst col) = false ->
  inheritedName (fst col) = false ->
  jsonMapStep (JObj entries) acc col = acc.
Proof.
  intros Hown Hinh. unfold jsonMapStep, mapTarget. rewrite Hown, Hinh.
  by destruct acc.
Qed.

(** X26.  The column-map transformation silently drops the columns that the
    mapping document does not name: its result on a row is its result on the
    row's mapped columns alone, also when that result is an exception.
    (Columns named like a member of [Object.prototype] are set aside: the
    model does not cover them.) *)
Theorem json_map_ignores_unmapped_columns JSON_parse row contents entries :
  JSON_parse (JStr contents) = Some (JObj entries) ->
  (forall col, In col row -> hasOwn entries (fst col) = false ->
               inheritedName (fst col) = false) ->
  transformJsonMap JSON_parse row {| rowToEventMap := Some contents |}
  = transformJsonMap JSON_parse (mappedColumns entries row)
                     {| rowToEventMap := Some contents |}.
Proof.
  intros Hp Hrow. unfold transformJsonMap. cbn [rowToEventMap]. rewrite Hp.
  generalize (Returned {| event := JStr ""; properties := JObj [] |}).
  induction row as [|col row IH]; intros acc; [reflexivity|].
  unfold mappedColumns in *. cbn [fold_left List.filter].
  destruct (hasOwn entries (fst col)) eqn:Hown.
  - cbn [fold_left]. apply IH. intros c Hc. apply Hrow. by right.
  - rewrite jsonMapStep_unmapped; [| exact Hown | apply Hrow; [by left | exact Hown]].
    apply IH. intros c Hc. apply Hrow. by right.
Qed.

Lemma json_map_ignores_unmapped_witness :
  transformJsonMap Sample.JSON_parse Sample.wideRow
                   {| rowToEventMap := Some Sample.columnMap |}
  = transformJsonMap Sample.JSON_parse
                     [("event_name", JStr "signup"); ("ts", JStr "t")]
                     {| rowToEventMap := Some Sample.columnMap |}.
Proof.
  apply (json_map_ignores_unmapped_columns
           Sample.JSON_parse Sample.wideRow Sample.columnMap
           [("event_name", JStr "event"); ("ts", JStr "timestamp")]).
  - reflexivity.
  - intros col Hin _. simpl in Hin.
    repeat (destruct Hin as [<-|Hin]; [reflexivity|]).
    destruct Hin.
Defined.

Lemma mappedTo_more entries seen more target v :
  mappedTo entries seen target v -> mappedTo entries (seen ++ more) target v.
Proof.
  intros (col & Hin & Ht & Hv). exists col. split; [|done].
  apply in_or_app. by left.
Qed.

Lemma jsonMapShape_more entries seen more e :
  jsonMapShape entries seen e -> jsonMapShape entries (seen ++ more) e.
Proof.
  intros [Hev (props & Hp & Hk)]. split.
  - destruct Hev as [Hev|Hev]; [by left | right; by apply mappedTo_more].
  - exists props. split; [done|]. intros k Hown.
    destruct (Hk k Hown) as [Hne Hm]. split; [done | by apply mappedTo_more].
Qed.

Lemma jsonMapStep_stuck m acc col :
  (forall e, acc <> Returned e) -> jsonMapStep m acc col = acc.
Proof. intros H. destruct acc; [by destruct (H a) | done | done]. Qed.

Lemma jsonMap_fold_stuck m row acc :
  (forall e, acc <> Returned e) -> fold_left (jsonMapStep m) row acc = acc.
Proof.
  intros H. induction row as [|col row IH]; [reflexivity|].
  cbn [fold_left]. by rewrite jsonMapStep_stuck.
Qed.

Lemma jsonMapStep_shape entries seen acc col e :
  jsonMapShape entries seen acc ->
  jsonMapStep (JObj entries) (Returned acc) col = Returned e ->
  jsonMapShape entries (seen ++ [col]) e.
Proof.
  intros Hshape. unfold jsonMapStep, mapTarget.
  destruct (hasOwn entries (fst col)) eqn:Hown.
  - destruct (truthy (getProp entries (fst col))) eqn:Htruthy; cbn [negb].
    + destruct (getProp entries (fst col)) as [| | | |name| |] eqn:Htarget;
        try discriminate.
      destruct Hshape as [Hev (props & Hp & Hk)]. rewrite Hp.
      assert (forall v, snd col = v -> mappedTo entries (seen ++ [col]) name v) as Hcol.
      { intros v Hv. exists col. split; [|done]. apply in_or_app. right. by left. }
      destruct (String.eqb name "event") eqn:Hevent.
      * intros [= <-]. apply String.eqb_eq in Hevent as ->. split.
        -- right. cbn [event]. by apply Hcol.
        -- exists props. split; [done|]. intros k Hkown.
           destruct (Hk k Hkown) as [Hne Hm]. split; [done | by apply mappedTo_more].
      * destruct (String.eqb name "__proto__"); [discriminate|].
        intros [= <-]. apply String.eqb_neq in Hevent. split.
        -- cbn [event]. destruct Hev as [Hev|Hev]; [by left | right; by apply mappedTo_more].
        -- eexists. split; [reflexivity|]. intros k Hkown.
           rewrite hasOwn_setProp in Hkown.
           destruct (String.eqb name k) eqn:Hnk.
           ++ apply String.eqb_eq in Hnk as <-. split; [done|].
              rewrite getProp_setProp_eq. by apply Hcol.
           ++ cbn in Hkown. apply String.eqb_neq in Hnk.
              rewrite getProp_setProp_ne by done.
              destruct (Hk k Hkown) as [Hne Hm]. split; [done | by apply mappedTo_more].
    + intros [= <-]. by apply jsonMapShape_more.
  - destruct (inheritedName (fst col)); [discriminate|]. cbn.
    intros [= <-]. by apply jsonMapShape_more.
Qed.

Lemma jsonMap_fold_shape entries row :
  forall seen acc e,
    jsonMapShape entries seen acc ->
    fold_left (jsonMapStep (JObj entries)) row (Returned acc) = Returned e ->
    jsonMapShape entries (seen ++ row) e.
Proof.
  induction row as [|col row IH]; intros seen acc e Hshape Hfold.
  - cbn in Hfold. injection Hfold as <-. by rewrite app_nil_r.
  - cbn [fold_left] in Hfold.
    destruct (jsonMapStep (JObj entries) (Returned acc) col) as [acc'| |] eqn:Hstep.
    + replace (seen ++ col :: row) with ((seen ++ [col]) ++ row)
        by (by rewrite <- app_assoc).
      apply (IH _ acc'); [|exact Hfold].
      by apply (jsonMapStep_shape entries seen acc col).
    + rewrite jsonMap_fold_stuck in Hfold; [discriminate | done].
    + rewrite jsonMap_fold_stuck in Hfold; [discriminate | done].
Qed.

Lemma getProp_stringValued entries c :
  stringValued entries = true ->
  hasOwn entries c = true ->
  exists name, getProp entries c = JStr name.
Proof.
  unfold stringValued, hasOwn.
  induction entries as [|[k v] entries IH]; cbn; [discriminate|].
  intros Hs Hown. apply andb_prop in Hs as [Hv Hs].
  destruct (String.eqb k c).
  - destruct v; try discriminate. by eexists.
  - by apply IH.
Qed.

Lemma getProp_not_prototype entries c :
  namesPrototype entries = false -> getProp entries c <> JStr "__proto__".
Proof.
  unfold namesPrototype.
  induction entries as [|[k v] entries IH]; cbn; [discriminate|].
  intros Hn. apply orb_false_elim in Hn as [Hv Hn].
  destruct (String.eqb k c); [|by apply IH].
  intros ->. cbn in Hv. discriminate.
Qed.

Lemma jsonMapStep_returns entries acc col props :
  stringValued entries = true ->
  namesPrototype entries = false ->
  (hasOwn entries (fst col) = false -> inheritedName (fst col) = false) ->
  properties acc = JObj props ->
  exists e, jsonMapStep (JObj entries) (Returned acc) col = Returned e.
Proof.
  intros Hs Hn Hcol Hp. unfold jsonMapStep, mapTarget.
  destruct (hasOwn entries (fst col)) eqn:Hown.
  - destruct (getProp_stringValued entries (fst col) Hs Hown) as [name Hname].
    pose proof (getProp_not_prototype entries (fst col) Hn) as Hproto.
    rewrite Hname in *. rewrite Hp.
    destruct (negb (truthy (JStr name))); [by eexists|].
    destruct (String.eqb name "event"); [by eexists|].
    destruct (String.eqb name "__proto__") eqn:E; [|by eexists].
    apply String.eqb_eq in E as ->. by destruct Hproto.
  - rewrite (Hcol eq_refl). cbn. by eexists.
Qed.

Lemma jsonMap_fold_returns entries row :
  stringValued entries = true ->
  namesPrototype entries = false ->
  forall seen acc,
    (forall col, In col row -> hasOwn entries (fst col) = false ->
                 inheritedName (fst col) = false) ->
    jsonMapShape entries seen acc ->
    exists e,
      fold_left (jsonMapStep (JObj entries)) row (Returned acc) = Returned e
      /\ jsonMapShape entries (seen ++ row) e.
Proof.
  intros Hs Hn. induction row as [|col row IH]; intros seen acc Hrow Hshape.
  - exists acc. split; [reflexivity | by rewrite app_nil_r].
  - destruct Hshape as [Hev (props & Hp & Hk)].
    destruct (jsonMapStep_returns entries acc col props Hs Hn) as [e' He'];
      [apply Hrow; by left | exact Hp |].
    assert (jsonMapShape entries (seen ++ [col]) e') as Hshape'.
    { apply (jsonMapStep_shape entries seen acc col e'); [|exact He'].
      split; [exact Hev|]. by exists props. }
    destruct (IH (seen ++ [col]) e') as (e & Hfold & He); [|exact Hshape'|].
    { intros c Hc. apply Hrow. by right. }
    exists e. cbn [fold_left]. rewrite He'. split; [exact Hfold|].
    by rewrite <- app_assoc in He.
Qed.

(** X27.  With a mapping document that is a JSON object of strings, none of
    them "__proto__", and a row whose unmapped columns are not named like a
    member of [Object.prototype], the column map always returns, and what it
    returns comes from the mapped columns only: the event name is the empty
    string or the value of a column mapped to "event"; each property is
    named by the mapping for some column of the row and holds that column's
    value, and no property is named "event". *)
Theorem json_map_output_comes_from_mapped_columns
    JSON_parse row contents entries :
  JSON_parse (JStr contents) = Some (JObj entries) ->
  stringValued entries = true ->
  namesPrototype entries = false ->
  (forall col, In col row -> hasOwn entries (fst col) = false ->
               inheritedName (fst col) = false) ->
  exists e,
    transformJsonMap JSON_parse row {| rowToEventMap := Some contents |} = Returned e
    /\ jsonMapShape entries row e.
Proof.
  intros Hp Hs Hn Hrow. unfold transformJsonMap. cbn [rowToEventMap]. rewrite Hp.
  apply (jsonMap_fold_returns entries row Hs Hn []
                              {| event := JStr ""; properties := JObj [] |} Hrow).
  split; [by left|]. exists []. split; [reflexivity|]. intros k Hk. discriminate.
Qed.

Lemma json_map_output_witness :
  transformJsonMap Sample.JSON_parse Sample.wideRow
                   {| rowToEventMap := Some Sample.columnMap |}
  = Returned {| event := JStr "signup";
                properties := JObj [("timestamp", JStr "t")] |}
  /\ exists e,
       transformJsonMap Sample.JSON_parse Sample.wideRow
                        {| rowToEventMap := Some Sample.columnMap |} = Returned e
       /\ jsonMapShape [("event_name", JStr "event"); ("ts", JStr "timestamp")]
                       Sample.wideRow e.
Proof.
  split; [reflexivity|].
  apply (json_map_output_comes_from_mapped_columns
           Sample.JSON_parse Sample.wideRow Sample.columnMap
           [("event_name", JStr "event"); ("ts", JStr "timestamp")]).
  - reflexivity.
  - reflexivity.
  - reflexivity.
  - intros col Hin _. simpl in Hin.
    repeat (destruct Hin as [<-|Hin]; [reflexivity|]).
    destruct Hin.
Defined.

Lemma jsonMapStep_thrown m acc col e :
  jsonMapStep m acc col = Thrown e ->
  acc = Thrown e
  \/ ((m = JNull \/ m = JUndefined)
      /\ e = TypeErr "Cannot read properties of null").
Proof.
  unfold jsonMapStep, mapTarget. destruct acc as [acc| |]; [|by left|discriminate].
  destruct m as [| | | | | |entries]; try discriminate.
  - intros [= <-]. right. split; [by right | reflexivity].
  - intros [= <-]. right. split; [by left | reflexivity].
  - destruct (hasOwn entries (fst col)).
    + destruct (truthy _); cbn [negb]; [|discriminate].
      destruct (getProp entries (fst col)); try discriminate.
      destruct (properties acc); try discriminate.
      destruct (String.eqb _ "event"); [discriminate|].
      destruct (String.eqb _ "__proto__"); discriminate.
    + destruct (inheritedName (fst col)); discriminate.
Qed.

Lemma jsonMap_fold_thrown m row :
  forall acc e,
    fold_left (jsonMapStep m) row acc = Thrown e ->
    acc = Thrown e
    \/ ((m = JNull \/ m = JUndefined)
        /\ row <> []
        /\ e = TypeErr "Cannot read properties of null").
Proof.
  induction row as [|col row IH]; intros acc e Hfold; [by left|].
  cbn [fold_left] in Hfold.
  destruct (IH _ _ Hfold) as [Hstep|(Hm & _ & He)].
  - destruct (jsonMapStep_thrown m acc col e Hstep) as [Hacc|[Hm He]]; [by left|].
    right. by repeat split.
  - right. by repeat split.
Qed.

(** X28.  When the mapping file is absent, is not JSON, or parses to [null]
    or to an object whose values are all strings, the column map throws in
    three cases only: no mapping file is attached ('Row to event mapping JSON
    file not provided!'), the file is not JSON ('... contains invalid JSON!'),
    or the file is the JSON [null] and the row has a column, where reading
    the mapping throws a [TypeError].  A mapping document that is an object
    of strings never makes it throw. *)
Theorem json_map_exceptions JSON_parse row attachments e :
  (forall contents m,
     rowToEventMap attachments = Some contents ->
     JSON_parse (JStr contents) = Some m ->
     nullOrStringValued m) ->
  transformJsonMap JSON_parse row attachments = Thrown e ->
  (rowToEventMap attachments = None
   /\ e = ErrorMsg "Row to event mapping JSON file not provided!")
  \/ (exists contents,
        rowToEventMap attachments = Some contents
        /\ JSON_parse (JStr contents) = None
        /\ e = ErrorMsg "Row to event mapping JSON file contains invalid JSON!")
  \/ (exists contents,
        rowToEventMap attachments = Some contents
        /\ JSON_parse (JStr contents) = Some JNull
        /\ row <> []
        /\ e = TypeErr "Cannot read properties of null").
Proof.
  intros Htyped. unfold transformJsonMap.
  destruct (rowToEventMap attachments) as [contents|].
  - destruct (JSON_parse (JStr contents)) as [m|] eqn:Hp.
    + intros Hfold. right. right.
      destruct (jsonMap_fold_thrown m row _ e Hfold) as [Hacc|(Hm & Hrow & He)];
        [discriminate|].
      destruct (Htyped contents m eq_refl Hp) as [->|(entries & -> & _)].
      * by exists contents.
      * by destruct Hm.
    + intros [= <-]. right. left. by exists contents.
  - intros [= <-]. by left.
Qed.

Lemma json_map_exceptions_witness :
  let attachments := {| rowToEventMap := Some "null" |} in
  let e := TypeErr "Cannot read properties of null" in
  transformJsonMap Sample.JSON_parse Sample.eventNameRow attachments = Thrown e
  /\ ((rowToEventMap attachments = None
       /\ e = ErrorMsg "Row to event mapping JSON file not provided!")
      \/ (exists contents,
            rowToEventMap attachments = Some contents
            /\ Sample.JSON_parse (JStr contents) = None
            /\ e = ErrorMsg "Row to event mapping JSON file contains invalid JSON!")
      \/ (exists contents,
            rowToEventMap attachments = Some contents
            /\ Sample.JSON_parse (JStr contents) = Some JNull
            /\ Sample.eventNameRow <> []
            /\ e = TypeErr "Cannot read properties of null")).
Proof.
  split; [reflexivity|].
  apply (json_map_exceptions
           Sample.JSON_parse Sample.eventNameRow {| rowToEventMap := Some "null" |}
           (TypeErr "Cannot read properties of null")).
  - intros contents m [= <-] Hp. vm_compute in Hp. injection Hp as <-. by left.
  - reflexivity.
Defined.
